(** * Verification of tree-gen: the Blender front end [ch_trees/gui.py]
    and spec-level models of the generation core.

    The front end ([TreeGen.execute], [TreeGen._construct],
    [TreeGen._get_params_from_customizer], the scene properties) is embedded
    from the source.  Python exceptions and the side effects the claims
    observe (calls into the generator modules, writes to [sys.stdout]) are
    threaded through a small state-and-exception monad. *)

From Stdlib Require Import String Ascii ZArith QArith Lia Bool PeanoNat List.
Import ListNotations.
Open Scope string_scope.

(** ** Python effects *)
Module Py.

(** Exceptions that reach the modelled code. *)
Inductive exc :=
| NameError
| AttributeError
| ImportError
| RuntimeError
| ValueError.

(** Observable effects, in the order they happen. *)
Inductive event :=
| Stdout (s : string)
| ParametricCall (params_module : string) (seed : Z) (render : bool)
    (render_path : string) (leaves : bool)
| LsystemCall (mod_name : string) (leaves : bool)
| SimplifyCall
| TracebackPrinted.

(** A computation reads the effect log so far and either raises or returns. *)
Definition M (A : Type) : Type := list event -> (exc + A) * list event.

Definition ret {A} (a : A) : M A := fun s => (inr a, s).
Definition bind {A B} (c : M A) (k : A -> M B) : M B :=
  fun s => match c s with
           | (inl e, s') => (inl e, s')
           | (inr a, s') => k a s'
           end.
Definition raise {A} (e : exc) : M A := fun s => (inl e, s).
Definition emit (ev : event) : M unit := fun s => (inr tt, (s ++ [ev])%list).

Notation "x <- c ;; k" := (bind c (fun x => k))
  (at level 61, c at next level, right associativity).
Notation "c ;; k" := (bind c (fun _ => k)) (at level 61, right associativity).

(** A call into a collaborator that either returns normally ([None]) or
    raises. *)
Definition call (o : option exc) : M unit :=
  match o with None => ret tt | Some e => raise e end.

(** [try: c except Exception as ex: handler ex] *)
Definition try_except {A} (c : M A) (handler : exc -> M A) : M A :=
  fun s => match c s with
           | (inl e, s') => handler e s'
           | ok => ok
           end.

Definition run {A} (c : M A) : (exc + A) * list event := c [].

(** The public functions of Python's [traceback] module. *)
Definition traceback_attrs : list string :=
  ["print_tb"; "print_exception"; "print_exc"; "print_last"; "print_stack";
   "extract_tb"; "extract_stack"; "format_list"; "format_exception_only";
   "format_exception"; "format_exc"; "format_tb"; "format_stack";
   "clear_frames"; "walk_stack"; "walk_tb"; "print_list";
   "TracebackException"; "StackSummary"; "FrameSummary"].

(** [traceback.<name>()]: the attribute lookup raises [AttributeError] when
    the module has no such function; the printing functions print the
    current traceback and return [None], whose [str] is ["None"]. *)
Definition traceback_call (name : string) : M string :=
  if existsb (String.eqb name) traceback_attrs
  then emit TracebackPrinted ;; ret "None"
  else raise AttributeError.

Definition nl : string := String (ascii_of_nat 10) EmptyString.

End Py.

(** ** Blender properties

    A property declared with [min] and [max] stores every assigned value
    clamped to [[min, max]] (Blender's hard limits). *)
Module Blender.

Record IntProperty := { ip_default : Z; ip_min : Z; ip_max : Z }.
Record FloatProperty := { fp_default : Q; fp_min : Q; fp_max : Q }.

Definition int_assign (p : IntProperty) (v : Z) : Z :=
  if (v <? ip_min p)%Z then ip_min p
  else if (ip_max p <? v)%Z then ip_max p
  else v.

Definition float_assign (p : FloatProperty) (v : Q) : Q :=
  if Qle_bool (fp_min p) v then
    if Qle_bool v (fp_max p) then v else fp_max p
  else fp_min p.

End Blender.

(** ** [ch_trees/gui.py] *)
Module Gui.
Import Py Blender.

(** The scene properties read by [TreeGen._construct]. *)
Record Scene := {
  tree_gen_method_input : string;
  para_tree_type_input : string;
  lsys_tree_type_input : string;
  seed_input : Z;
  generate_leaves_input : bool;
  simplify_geometry_input : bool;
  render_input : bool;
  render_output_path_input : string }.

Record Context := { scene : Scene }.

(** [bpy.types.Scene.seed_input = bpy.props.IntProperty(name="", default=0,
    min=0, max=9999999)] *)
Definition seed_input_prop : IntProperty :=
  {| ip_default := 0; ip_min := 0; ip_max := 9999999 |}.

(** [scene.seed_input = v] *)
Definition set_seed_input (sc : Scene) (v : Z) : Scene :=
  {| tree_gen_method_input := tree_gen_method_input sc;
     para_tree_type_input := para_tree_type_input sc;
     lsys_tree_type_input := lsys_tree_type_input sc;
     seed_input := int_assign seed_input_prop v;
     generate_leaves_input := generate_leaves_input sc;
     simplify_geometry_input := simplify_geometry_input sc;
     render_input := render_input sc;
     render_output_path_input := render_output_path_input sc |}.

(** The modules [_construct] calls into, which are not part of gui.py:
    each call returns normally ([None]) or raises.  A preset's [mod.params]
    is identified by the name of the module that defines it. *)
Record Collaborators := {
  import_reload : string -> option exc;
  parametric_gen_construct : string -> Z -> bool -> string -> bool -> option exc;
  lsystems_gen_construct : string -> bool -> option exc;
  import_utilities : option exc;
  simplify_branch_geometry : option exc }.

Definition simplify_start_msg : string :=
  "Simplifying tree branch geometry. Blender will appear to crash; be patient." ++ nl.
Definition simplify_done_msg : string :=
  "Geometry simplification complete" ++ nl ++ nl.

(** The generator choice of [TreeGen._construct]. *)
Definition construct_mod_name (sc : Scene) : string :=
  if String.eqb (tree_gen_method_input sc) "parametric"
  then para_tree_type_input sc else lsys_tree_type_input sc.

Definition construct_generate (co : Collaborators) (sc : Scene) : M unit :=
  let mod_name := construct_mod_name sc in
  if String.prefix "ch_trees.parametric" mod_name then
    call (import_reload co mod_name) ;;
    emit (ParametricCall mod_name (seed_input sc) (render_input sc)
            (render_output_path_input sc) (generate_leaves_input sc)) ;;
    call (parametric_gen_construct co mod_name (seed_input sc) (render_input sc)
            (render_output_path_input sc) (generate_leaves_input sc))
  else
    emit (LsystemCall mod_name (generate_leaves_input sc)) ;;
    call (lsystems_gen_construct co mod_name (generate_leaves_input sc)).

(** The [if scene.simplify_geometry_input:] block, including its
    [try]/[except] whose handler formats [traceback.print_exec()]. *)
Definition construct_simplify (co : Collaborators) (sc : Scene) : M unit :=
  if simplify_geometry_input sc then
    call (import_utilities co) ;;
    emit (Stdout simplify_start_msg) ;;
    try_except
      (emit SimplifyCall ;; call (simplify_branch_geometry co))
      (fun _ => v <- traceback_call "print_exec" ;;
                emit (Stdout (nl ++ v ++ nl))) ;;
    emit (Stdout simplify_done_msg)
  else ret tt.

(** [TreeGen._construct(self, context)] *)
Definition _construct (co : Collaborators) (ctx : Context) : M unit :=
  construct_generate co (scene ctx) ;;
  construct_simplify co (scene ctx).

(** [TreeGen.execute(self, context)]: a thread is started with target
    [_construct] and [{'FINISHED'}] is returned at once.  The started
    thread is recorded as the computation it will run. *)
Record Dispatch := {
  returned : list string;
  thread_target : M unit }.

Definition execute (co : Collaborators) (ctx : Context) : Dispatch :=
  {| returned := ["FINISHED"]; thread_target := _construct co ctx |}.

(** Log events written by the generator step (lines 105 to 111) and by
    the simplification step (lines 113 to 126) of [_construct]. *)
Definition generator_event (ev : event) : Prop :=
  match ev with ParametricCall _ _ _ _ _ | LsystemCall _ _ => True | _ => False end.
Definition simplify_event (ev : event) : Prop :=
  match ev with Stdout _ | SimplifyCall | TracebackPrinted => True | _ => False end.

End Gui.

(** ** The tree customizer of [TreeGen] *)
Module Customizer.
Import Py Blender.

(** The customizer's scene properties (declared in
    [TreeGen._initialize_customizer_params]). *)
Record CustomizerParams := {
  g_scale_input : Q;
  g_scale_v_input : Q;
  tree_level_count_input : Z;
  tree_ratio_input : Q;
  tree_ratio_power_input : Q;
  tree_flare_input : Q;
  tree_floor_split_input : Z;
  tree_base_splits_randomize_input : bool;
  tree_base_splits_limit_input : Z;
  tree_leaf_blos_num_input : Z;
  tree_leaf_scale : Q;
  tree_leaf_scale_x : Q;
  tree_leaf_bend_input : Q;
  tree_blossom_scale_input : Q;
  tree_blossom_rate_input : Q }.

Definition g_scale_prop : FloatProperty :=
  {| fp_default := 13; fp_min := 1 # 1000000; fp_max := 150 |}.
Definition g_scale_v_prop : FloatProperty :=
  {| fp_default := 3; fp_min := 0; fp_max := 14999 # 100 |}.
Definition tree_level_count_prop : IntProperty :=
  {| ip_default := 3; ip_min := 1; ip_max := 6 |}.
Definition tree_ratio_prop : FloatProperty :=
  {| fp_default := 15 # 1000; fp_min := 1 # 1000000; fp_max := 1 |}.
Definition tree_ratio_power_prop : FloatProperty :=
  {| fp_default := 12 # 10; fp_min := 0; fp_max := 5 |}.
Definition tree_flare_prop : FloatProperty :=
  {| fp_default := 6 # 10; fp_min := 0; fp_max := 10 |}.
Definition tree_floor_split_prop : IntProperty :=
  {| ip_default := 0; ip_min := 0; ip_max := 500 |}.
Definition tree_base_splits_limit_prop : IntProperty :=
  {| ip_default := 0; ip_min := 0; ip_max := 10 |}.
Definition tree_leaf_blos_num_prop : IntProperty :=
  {| ip_default := 40; ip_min := 0; ip_max := 3000 |}.
Definition tree_leaf_scale_prop : FloatProperty :=
  {| fp_default := 17 # 100; fp_min := 1 # 10000; fp_max := 1000 |}.
Definition tree_leaf_scale_x_prop : FloatProperty :=
  {| fp_default := 1; fp_min := 1 # 10000; fp_max := 1000 |}.
Definition tree_leaf_bend_prop : FloatProperty :=
  {| fp_default := 6 # 10; fp_min := 0; fp_max := 1 |}.
Definition tree_blossom_scale_prop : FloatProperty :=
  {| fp_default := 1; fp_min := 1 # 10000; fp_max := 1000 |}.
Definition tree_blossom_rate_prop : FloatProperty :=
  {| fp_default := 0; fp_min := 0; fp_max := 1 |}.

(** The values the customizer holds after the user requested [req]: every
    field goes through its property's clamping assignment. *)
Definition customizer_store (req : CustomizerParams) : CustomizerParams :=
  {| g_scale_input := float_assign g_scale_prop (g_scale_input req);
     g_scale_v_input := float_assign g_scale_v_prop (g_scale_v_input req);
     tree_level_count_input :=
       int_assign tree_level_count_prop (tree_level_count_input req);
     tree_ratio_input := float_assign tree_ratio_prop (tree_ratio_input req);
     tree_ratio_power_input :=
       float_assign tree_ratio_power_prop (tree_ratio_power_input req);
     tree_flare_input := float_assign tree_flare_prop (tree_flare_input req);
     tree_floor_split_input :=
       int_assign tree_floor_split_prop (tree_floor_split_input req);
     tree_base_splits_randomize_input := tree_base_splits_randomize_input req;
     tree_base_splits_limit_input :=
       int_assign tree_base_splits_limit_prop (tree_base_splits_limit_input req);
     tree_leaf_blos_num_input :=
       int_assign tree_leaf_blos_num_prop (tree_leaf_blos_num_input req);
     tree_leaf_scale := float_assign tree_leaf_scale_prop (tree_leaf_scale req);
     tree_leaf_scale_x :=
       float_assign tree_leaf_scale_x_prop (tree_leaf_scale_x req);
     tree_leaf_bend_input :=
       float_assign tree_leaf_bend_prop (tree_leaf_bend_input req);
     tree_blossom_scale_input :=
       float_assign tree_blossom_scale_prop (tree_blossom_scale_input req);
     tree_blossom_rate_input :=
       float_assign tree_blossom_rate_prop (tree_blossom_rate_input req) |}.

(** Every field of [p] lies between its property's declared [min] and
    [max]. *)
Definition in_declared_ranges (p : CustomizerParams) : Prop :=
  (fp_min g_scale_prop <= g_scale_input p <= fp_max g_scale_prop)%Q /\
  (fp_min g_scale_v_prop <= g_scale_v_input p <= fp_max g_scale_v_prop)%Q /\
  (ip_min tree_level_count_prop <= tree_level_count_input p
     <= ip_max tree_level_count_prop)%Z /\
  (fp_min tree_ratio_prop <= tree_ratio_input p <= fp_max tree_ratio_prop)%Q /\
  (fp_min tree_ratio_power_prop <= tree_ratio_power_input p
     <= fp_max tree_ratio_power_prop)%Q /\
  (fp_min tree_flare_prop <= tree_flare_input p <= fp_max tree_flare_prop)%Q /\
  (ip_min tree_floor_split_prop <= tree_floor_split_input p
     <= ip_max tree_floor_split_prop)%Z /\
  (ip_min tree_base_splits_limit_prop <= tree_base_splits_limit_input p
     <= ip_max tree_base_splits_limit_prop)%Z /\
  (ip_min tree_leaf_blos_num_prop <= tree_leaf_blos_num_input p
     <= ip_max tree_leaf_blos_num_prop)%Z /\
  (fp_min tree_leaf_scale_prop <= tree_leaf_scale p <= fp_max tree_leaf_scale_prop)%Q /\
  (fp_min tree_leaf_scale_x_prop <= tree_leaf_scale_x p
     <= fp_max tree_leaf_scale_x_prop)%Q /\
  (fp_min tree_leaf_bend_prop <= tree_leaf_bend_input p
     <= fp_max tree_leaf_bend_prop)%Q /\
  (fp_min tree_blossom_scale_prop <= tree_blossom_scale_input p
     <= fp_max tree_blossom_scale_prop)%Q /\
  (fp_min tree_blossom_rate_prop <= tree_blossom_rate_input p
     <= fp_max tree_blossom_rate_prop)%Q.

Definition customizer_defaults : CustomizerParams :=
  {| g_scale_input := fp_default g_scale_prop;
     g_scale_v_input := fp_default g_scale_v_prop;
     tree_level_count_input := ip_default tree_level_count_prop;
     tree_ratio_input := fp_default tree_ratio_prop;
     tree_ratio_power_input := fp_default tree_ratio_power_prop;
     tree_flare_input := fp_default tree_flare_prop;
     tree_floor_split_input := ip_default tree_floor_split_prop;
     tree_base_splits_randomize_input := false;
     tree_base_splits_limit_input := ip_default tree_base_splits_limit_prop;
     tree_leaf_blos_num_input := ip_default tree_leaf_blos_num_prop;
     tree_leaf_scale := fp_default tree_leaf_scale_prop;
     tree_leaf_scale_x := fp_default tree_leaf_scale_x_prop;
     tree_leaf_bend_input := fp_default tree_leaf_bend_prop;
     tree_blossom_scale_input := fp_default tree_blossom_scale_prop;
     tree_blossom_rate_input := fp_default tree_blossom_rate_prop |}.

(** The names gui.py binds at module level.  [scene] is not among them. *)
Definition gui_globals : list string :=
  ["bpy"; "traceback"; "threading"; "imp"; "sys"; "os"; "parametric";
   "lsystems"; "_get_tree_types"; "TreeGen"; "TreeGenPanel"].

(** What the free name [scene] of [_get_params_from_customizer] resolves
    to: a customizer scene if the module bound one, [None] otherwise. *)
Definition gui_global_scene : option CustomizerParams := None.

(** The local [tree_base_splits] of [_get_params_from_customizer]:
    [tree_base_splits = scene.tree_base_splits_limit_input] and, when the
    randomize flag is set, [tree_base_splits *= 1]. *)
Definition customizer_base_splits (sc : CustomizerParams) : Z :=
  let tree_base_splits := tree_base_splits_limit_input sc in
  if tree_base_splits_randomize_input sc
  then (tree_base_splits * 1)%Z else tree_base_splits.

(** [TreeGen._get_params_from_customizer(self)]: reading the unbound name
    [scene] raises [NameError]; with a bound [scene] the body computes
    [tree_base_splits] and falls off its end, returning [None]. *)
Definition _get_params_from_customizer (global_scene : option CustomizerParams)
  : M (option Z) :=
  match global_scene with
  | None => raise NameError
  | Some sc => let _ := customizer_base_splits sc in ret None
  end.

End Customizer.

(** * Models of the generation core

    The generator modules [ch_trees.parametric] and [ch_trees.lsystems] are
    imported by gui.py but their code is not part of the sources at hand.
    The definitions below follow the spec's description of them. *)

(** Error kinds of the core (spec, section 7). *)
Inductive GenError :=
| InvalidParameter (field : string)
| MalformedGrammar
| PruningExhausted
| DegenerateGeometry.

(** ** Parameter validation *)
Module ParamValidation.
Import Blender Customizer.

Definition float_in (p : FloatProperty) (v : Q) : bool :=
  Qle_bool (fp_min p) v && Qle_bool v (fp_max p).
Definition int_in (p : IntProperty) (v : Z) : bool :=
  (ip_min p <=? v)%Z && (v <=? ip_max p)%Z.

(** Each numeric field of a parameter set with the verdict of its
    documented range (the ranges declared for the customizer). *)
Definition param_checks (p : CustomizerParams) : list (string * bool) :=
  [("baseScale", float_in g_scale_prop (g_scale_input p));
   ("scaleVariance", float_in g_scale_v_prop (g_scale_v_input p));
   ("levelCount", int_in tree_level_count_prop (tree_level_count_input p));
   ("ratio", float_in tree_ratio_prop (tree_ratio_input p));
   ("ratioPower", float_in tree_ratio_power_prop (tree_ratio_power_input p));
   ("flare", float_in tree_flare_prop (tree_flare_input p));
   ("floorSplits", int_in tree_floor_split_prop (tree_floor_split_input p));
   ("baseSplits", int_in tree_base_splits_limit_prop (tree_base_splits_limit_input p));
   ("leafCount", int_in tree_leaf_blos_num_prop (tree_leaf_blos_num_input p));
   ("leafScale", float_in tree_leaf_scale_prop (tree_leaf_scale p));
   ("leafScaleX", float_in tree_leaf_scale_x_prop (tree_leaf_scale_x p));
   ("bendTowardLight", float_in tree_leaf_bend_prop (tree_leaf_bend_input p));
   ("blossomScale", float_in tree_blossom_scale_prop (tree_blossom_scale_input p));
   ("blossomRate", float_in tree_blossom_rate_prop (tree_blossom_rate_input p))].

(** The first field outside its range, if any. *)
Definition validate (p : CustomizerParams) : option string :=
  match find (fun c => negb (snd c)) (param_checks p) with
  | Some (f, _) => Some f
  | None => None
  end.

(** A stem of the parametric skeleton, as far as generation order goes. *)
Record PStem := { ps_level : nat; ps_parent : option nat }.

(** Generation threads the skeleton built so far and may fail. *)
Definition GenM (A : Type) : Type := list PStem -> (GenError + A) * list PStem.

(** Modelled from the spec: the entry point [generate(params, seed)] of the
    parametric generator (module [ch_trees.parametric], not in the sources):
    "parameter values outside documented numeric ranges are rejected with a
    validation error before generation starts".  [grow] is the recursive
    stem synthesis that follows a successful validation. *)
Definition generate (grow : CustomizerParams -> Z -> GenM unit)
    (p : CustomizerParams) (seed : Z) : GenM unit :=
  fun sk =>
    match validate p with
    | Some f => (inl (InvalidParameter f), sk)
    | None => grow p seed sk
    end.

End ParamValidation.

(** ** L-system interpreter *)
Module LSystem.
Local Open Scope nat_scope.
Local Open Scope list_scope.

Record Grammar := {
  axiom : list ascii;
  rules : list (ascii * list ascii);
  iterations : nat }.

Definition rule_for (rs : list (ascii * list ascii)) (c : ascii) : option (list ascii) :=
  match find (fun r => Ascii.eqb (fst r) c) rs with
  | Some (_, rhs) => Some rhs
  | None => None
  end.

(** One synchronous rewrite: every symbol with a rule is replaced, the
    others pass through. *)
Definition expand_once (rs : list (ascii * list ascii)) (w : list ascii) : list ascii :=
  flat_map (fun c => match rule_for rs c with Some r => r | None => [c] end) w.

Definition expand (g : Grammar) : list ascii :=
  Nat.iter (iterations g) (expand_once (rules g)) (axiom g).

Definition point := (Z * Z)%type.

(** Headings are multiples of the grammar's fixed turn angle (a quarter
    turn here), numbered 0 to 3. *)
Record Turtle := { t_pos : point; t_heading : Z; t_stem : nat }.

Record LStem := {
  ls_parent : option nat;
  ls_level : nat;
  ls_points : list point }.

Definition advance (t : Turtle) : point :=
  let '(x, y) := t_pos t in
  match t_heading t with
  | 0%Z => (x + 1, y)%Z
  | 1%Z => (x, y + 1)%Z
  | 2%Z => (x - 1, y)%Z
  | _ => (x, y - 1)%Z
  end.

Definition move_to (t : Turtle) (p : point) : Turtle :=
  {| t_pos := p; t_heading := t_heading t; t_stem := t_stem t |}.
Definition turn (t : Turtle) (d : Z) : Turtle :=
  {| t_pos := t_pos t; t_heading := Z.modulo (t_heading t + d) 4; t_stem := t_stem t |}.
Definition enter_stem (t : Turtle) (i : nat) : Turtle :=
  {| t_pos := t_pos t; t_heading := t_heading t; t_stem := i |}.

Fixpoint update_nth {A} (f : A -> A) (i : nat) (l : list A) : list A :=
  match l, i with
  | [], _ => []
  | x :: l', O => f x :: l'
  | x :: l', S i' => x :: update_nth f i' l'
  end.

Definition add_point (i : nat) (p : point) (sk : list LStem) : list LStem :=
  update_nth (fun s => {| ls_parent := ls_parent s; ls_level := ls_level s;
                          ls_points := (ls_points s ++ [p])%list |}) i sk.

Definition level_of (sk : list LStem) (i : nat) : nat :=
  match nth_error sk i with Some s => ls_level s | None => 0 end.

(** The turtle walk: [F] moves and draws into the current stem, [f] moves
    without drawing, [+]/[-] turn, [[] saves the turtle and begins a stem
    parented to the current one, []] restores the saved turtle and fails on
    an empty stack; other symbols are ignored.  A stack left non-empty at
    the end is an unmatched bracket too. *)
Fixpoint turtle_run (w : list ascii) (t : Turtle) (stack : list Turtle)
    (sk : list LStem) : GenError + list LStem :=
  match w with
  | [] => match stack with [] => inr sk | _ :: _ => inl MalformedGrammar end
  | c :: w' =>
    if Ascii.eqb c "F" then
      let p := advance t in turtle_run w' (move_to t p) stack (add_point (t_stem t) p sk)
    else if Ascii.eqb c "f" then turtle_run w' (move_to t (advance t)) stack sk
    else if Ascii.eqb c "+" then turtle_run w' (turn t 1) stack sk
    else if Ascii.eqb c "-" then turtle_run w' (turn t 3) stack sk
    else if Ascii.eqb c "[" then
      let child := {| ls_parent := Some (t_stem t);
                      ls_level := S (level_of sk (t_stem t));
                      ls_points := [t_pos t] |} in
      turtle_run w' (enter_stem t (List.length sk)) (t :: stack) (sk ++ [child])%list
    else if Ascii.eqb c "]" then
      match stack with
      | [] => inl MalformedGrammar
      | t0 :: st => turtle_run w' t0 st sk
      end
    else turtle_run w' t stack sk
  end.

Definition root_stem : LStem :=
  {| ls_parent := None; ls_level := 0; ls_points := [(0, 0)%Z] |}.
Definition turtle0 : Turtle := {| t_pos := (0, 0)%Z; t_heading := 1; t_stem := 0 |}.

(** Modelled from the spec: [generate(grammar, iterations)] of the L-system
    interpreter (module [ch_trees.lsystems], not in the sources): expansion
    followed by the turtle walk over an explicit state stack. *)
Definition interpret (w : list ascii) : GenError + list LStem :=
  turtle_run w turtle0 [] [root_stem].

Definition lsystem_generate (g : Grammar) : GenError + list LStem :=
  interpret (expand g).

(** Bracket structure of a word, read from nesting depth [d]. *)
Fixpoint balanced_from (d : nat) (w : list ascii) : bool :=
  match w with
  | [] => Nat.eqb d 0
  | c :: w' =>
    if Ascii.eqb c "[" then balanced_from (S d) w'
    else if Ascii.eqb c "]" then
      match d with O => false | S d' => balanced_from d' w' end
    else balanced_from d w'
  end.

Fixpoint unmatched_close_from (d : nat) (w : list ascii) : bool :=
  match w with
  | [] => false
  | c :: w' =>
    if Ascii.eqb c "[" then unmatched_close_from (S d) w'
    else if Ascii.eqb c "]" then
      match d with O => true | S d' => unmatched_close_from d' w' end
    else unmatched_close_from d w'
  end.

(** The nesting depth reached at each [[], in order. *)
Fixpoint open_depths_from (d : nat) (w : list ascii) : list nat :=
  match w with
  | [] => []
  | c :: w' =>
    if Ascii.eqb c "[" then S d :: open_depths_from (S d) w'
    else if Ascii.eqb c "]" then open_depths_from (pred d) w'
    else open_depths_from d w'
  end.

Definition balanced (w : list ascii) : bool := balanced_from 0 w.
Definition unmatched_close (w : list ascii) : bool := unmatched_close_from 0 w.
Definition open_depths (w : list ascii) : list nat := open_depths_from 0 w.

(** The tree shape of a skeleton: each stem's parent and level. *)
Definition shape (sk : list LStem) : list (option nat * nat) :=
  map (fun s => (ls_parent s, ls_level s)) sk.

(** Every stem but the root hangs below an earlier stem, one level deeper. *)
Definition well_parented (sk : list LStem) : Prop :=
  forall i s, nth_error sk i = Some s ->
    match ls_parent s with
    | None => i = 0 /\ ls_level s = 0
    | Some p => p < i /\ ls_level s = S (level_of sk p)
    end.

End LSystem.

(** ** Mesh builder *)
Module MeshBuilder.
Local Open Scope nat_scope.
Local Open Scope list_scope.

Definition Point := (Z * Z * Z)%type.

(** A skeleton stem: its parent (an index into the stem arena) and its
    centreline samples, each with the radius there. *)
Record MStem := {
  ms_parent : option nat;
  ms_samples : list (Point * Z) }.

(** A placed leaf or blossom: the four corners of its outline. *)
Record Instance := { inst_corners : Point * Point * Point * Point }.

Record Mesh := {
  vertices : list Point;
  faces : list (list nat) }.

Definition empty_mesh : Mesh := {| vertices := []; faces := [] |}.

Section Builder.

(** Position of vertex [j] of an [n]-vertex ring around a centre point with
    a radius, and the squared distance used to find the nearest vertex. *)
Variable ring_point : Point -> Z -> nat -> nat -> Point.
Variable dist2 : Point -> Point -> Z.

(** Ring vertex count: fewer vertices at smaller radii, never below 3. *)
Definition ring_count (r : Z) : nat := Nat.max 3 (Nat.min 16 (Z.to_nat r)).

Definition next (j n : nat) : nat := if Nat.eqb (S j) n then 0 else S j.

Definition ring_vertices (c : Point) (r : Z) (n : nat) : list Point :=
  map (fun j => ring_point c r j n) (seq 0 n).

Definition stem_vertices (samples : list (Point * Z)) (n : nat) : list Point :=
  flat_map (fun cr => ring_vertices (fst cr) (snd cr) n) samples.

(** The quad between ring [k] and ring [k+1] at ring position [j]. *)
Definition quad (base n k j : nat) : list nat :=
  [base + k * n + j; base + k * n + next j n;
   base + S k * n + next j n; base + S k * n + j].

Definition stem_faces (base n m : nat) : list (list nat) :=
  flat_map (fun k => map (fun j => quad base n k j) (seq 0 n)) (seq 0 (m - 1)).

(** Index of the element of [l] nearest to [c] (first one on ties). *)
Fixpoint nearest_from (c : Point) (l : list Point) (i best : nat) (bestd : Z)
  : nat :=
  match l with
  | [] => best
  | v :: l' =>
    if (dist2 c v <? bestd)%Z then nearest_from c l' (S i) i (dist2 c v)
    else nearest_from c l' (S i) best bestd
  end.

Definition nearest (c : Point) (l : list Point) : nat :=
  match l with
  | [] => 0
  | v :: l' => nearest_from c l' 1 0 (dist2 c v)
  end.

(** Triangles joining a child's first ring to one vertex of its parent. *)
Definition join_faces (base n pv : nat) : list (list nat) :=
  map (fun j => [base + j; base + next j n; pv]) (seq 0 n).

(** The builder keeps, per stem already emitted, the first index and the
    number of its vertices. *)
Definition add_stem (st : Mesh * list (nat * nat)) (s : MStem)
  : Mesh * list (nat * nat) :=
  let '(m, blocks) := st in
  let base := length (vertices m) in
  match ms_samples s with
  | [] => (m, blocks ++ [(base, 0)])
  | (c0, r0) :: _ =>
    let samples := ms_samples s in
    let n := ring_count r0 in
    let vs := stem_vertices samples n in
    let fs := stem_faces base n (length samples) in
    let js :=
      match ms_parent s with
      | Some p =>
        match nth_error blocks p with
        | Some (pb, pc) =>
          if Nat.ltb 0 pc
          then join_faces base n (pb + nearest c0 (firstn pc (skipn pb (vertices m))))
          else []
        | None => []
        end
      | None => []
      end in
    ({| vertices := vertices m ++ vs; faces := faces m ++ fs ++ js |},
     blocks ++ [(base, length vs)])
  end.

Definition add_instance (m : Mesh) (i : Instance) : Mesh :=
  let '(a, b, c, d) := inst_corners i in
  let base := length (vertices m) in
  {| vertices := vertices m ++ [a; b; c; d];
     faces := faces m ++ [[base; base + 1; base + 2; base + 3]] |}.

(** Modelled from the spec: [build(skeleton, instances) -> Mesh] of the Mesh
    Builder (part of the generation core, not in the sources): rings per
    centreline sample joined by quads, each ring joined to the nearest
    vertex of the parent stem, one quad per leaf or blossom, all vertices
    appended to one shared buffer. *)
Definition build (stems : list MStem) (insts : list Instance) : Mesh :=
  fold_left add_instance insts (fst (fold_left add_stem stems (empty_mesh, []))).

End Builder.

(** A face is valid in a buffer of [nv] vertices. *)
Definition valid_face (nv : nat) (f : list nat) : Prop :=
  3 <= length f /\ NoDup f /\ Forall (fun i => i < nv) f.

End MeshBuilder.

(** ** Pruning in the parametric generator *)
Module Pruning.
Local Open Scope nat_scope.
Local Open Scope list_scope.

Record PruneParams := {
  prune_ratio : Q;
  prune_width : Q;
  prune_width_peak : Q;
  prune_power_low : Q;
  prune_power_high : Q }.

Definition Point := (Q * Q * Q)%type.

(** A candidate stem: the length it was grown with and its endpoint. *)
Record Candidate := { c_length : Q; c_end : Point }.

(** Retry bound and length reduction per retry. *)
Definition max_prune_retries : nat := 10.
Definition prune_shrink : Q := 9 # 10.

Record PruneResult (Rng : Type) := {
  accepted : Candidate;
  discarded : nat;
  warnings : list GenError;
  rng_out : Rng }.
Arguments accepted {Rng}.
Arguments discarded {Rng}.
Arguments warnings {Rng}.
Arguments rng_out {Rng}.
Arguments Build_PruneResult {Rng}.

Section Prune.

(** The seeded random source, the stem synthesis for a requested length,
    and the envelope test of an endpoint. *)
Variable Rng : Type.
Variable grow_stem : Q -> Rng -> Candidate * Rng.
Variable inside_envelope : PruneParams -> Point -> bool.
Variable pp : PruneParams.

(** Grow a candidate; while its endpoint is outside the envelope discard it
    and grow again with a reduced length, at most [fuel] more times; when
    the retries are used up accept the last (shortest) candidate with a
    [PruningExhausted] warning. *)
Fixpoint prune_loop (fuel : nat) (len : Q) (rng : Rng) (discards : nat)
  : PruneResult Rng :=
  let '(cand, rng') := grow_stem len rng in
  if inside_envelope pp (c_end cand)
  then Build_PruneResult cand discards [] rng'
  else match fuel with
       | O => Build_PruneResult cand discards [PruningExhausted] rng'
       | S f => prune_loop f (len * prune_shrink) rng' (S discards)
       end.

(** Modelled from the spec: placement of one child stem by the parametric
    generator (module [ch_trees.parametric], not in the sources).  With
    pruning ratio 0 there is no pruning: the first candidate is kept. *)
Definition place_stem (len : Q) (rng : Rng) : PruneResult Rng :=
  if Qeq_bool (prune_ratio pp) 0 then
    let '(cand, rng') := grow_stem len rng in Build_PruneResult cand 0 [] rng'
  else prune_loop max_prune_retries len rng 0.

(** All children of one level, threading the random source; returns the
    accepted stems, the total number of discarded candidates and the
    warnings. *)
Fixpoint place_stems (lens : list Q) (rng : Rng)
  : list Candidate * nat * list GenError * Rng :=
  match lens with
  | [] => ([], 0, [], rng)
  | len :: lens' =>
    let r := place_stem len rng in
    let '(cs, d, ws, rng'') := place_stems lens' (rng_out r) in
    (accepted r :: cs, discarded r + d, warnings r ++ ws, rng'')
  end.

End Prune.
End Pruning.

(** ** [_get_tree_types] of [ch_trees/gui.py] *)
Module TreeTypes.
Local Open Scope nat_scope.
Local Open Scope string_scope.

(** Exceptions this function can raise. *)
Inductive exc := IndexError | NameError | OSError.

Definition is_upper (c : ascii) : bool :=
  Nat.leb 65 (nat_of_ascii c) && Nat.leb (nat_of_ascii c) 90.
Definition is_lower (c : ascii) : bool :=
  Nat.leb 97 (nat_of_ascii c) && Nat.leb (nat_of_ascii c) 122.
Definition to_upper (c : ascii) : ascii :=
  if is_lower c then ascii_of_nat (nat_of_ascii c - 32) else c.
Definition to_lower (c : ascii) : ascii :=
  if is_upper c then ascii_of_nat (nat_of_ascii c + 32) else c.

(** [str.title()]: a character following a cased character is lowered,
    any other is upper-cased. *)
Fixpoint title_from (previous_is_cased : bool) (s : string) : string :=
  match s with
  | EmptyString => EmptyString
  | String c s' =>
    String (if previous_is_cased then to_lower c else to_upper c)
           (title_from (is_upper c || is_lower c) s')
  end.
Definition py_title (s : string) : string := title_from false s.

(** [s.replace(a, b)] for single characters. *)
Fixpoint replace_char (a b : ascii) (s : string) : string :=
  match s with
  | EmptyString => EmptyString
  | String c s' => String (if Ascii.eqb c a then b else c) (replace_char a b s')
  end.

(** [s.split(sep)] for a one-character separator: always at least one
    piece. *)
Fixpoint split_on (sep : ascii) (s : string) : list string :=
  match s with
  | EmptyString => [EmptyString]
  | String c s' =>
    if Ascii.eqb c sep then EmptyString :: split_on sep s'
    else match split_on sep s' with
         | [] => [String c EmptyString]
         | p :: ps => String c p :: ps
         end
  end.

Definition sep : ascii := "/".

(** [os.path.join(a, b)] (POSIX). *)
Definition path_join (a b : string) : string :=
  match b with
  | String c _ => if Ascii.eqb c sep then b else
      if String.eqb a "" then b
      else if String.eqb (substring (String.length a - 1) 1 a) "/" then a ++ b
      else a ++ "/" ++ b
  | EmptyString =>
      if String.eqb a "" then b
      else if String.eqb (substring (String.length a - 1) 1 a) "/" then a
      else a ++ "/"
  end.

Definition module_path_parts : list (list string) :=
  [["parametric"; "tree_params"]; ["lsystems"; "sys_defs"]].

(** A drop-down item: (internal value, label, hover text). *)
Definition option_item := (string * string * string)%type.

Definition module_name (addon_name : string) (modparts : list string) (f : string)
  : string :=
  addon_name ++ "." ++ String.concat "." modparts ++ "." ++ f.

Definition option_title (f : string) : string := py_title (replace_char "_" " " f).

(** Lines 31 to 44, for one folder: the module paths, the titles, the
    default ([modules[0]], or the last module titled 'Quaking Aspen') and
    the items. *)
Definition folder_options (addon_name : string) (modparts : list string)
    (files : list string) : exc + (list option_item * string) :=
  let modules := map (module_name addon_name modparts) files in
  let titles := map option_title files in
  match modules with
  | [] => inl IndexError
  | m0 :: _ =>
    let '(quaking_aspen, options) :=
      fold_left (fun acc mt =>
                   let '(qa, opts) := acc in
                   let '(module, title) := mt in
                   (if String.eqb title "Quaking Aspen" then module else qa,
                    (opts ++ [(module, title, title)])%list))
                (combine modules titles) (m0, @nil option_item) in
    inr (options, quaking_aspen)
  end.

(** Line 28: the names of the regular files of a listing, each cut at its
    first dot.  A listing is given as (name, is a regular file). *)
Definition listed_files (entries : list (string * bool)) : list string :=
  map (fun e => hd EmptyString (split_on "." (fst e))) (filter snd entries).

(** The names bound while [_get_tree_types] runs: its locals and gui.py's
    globals.  [enum_options] is not among them ([enums_options] is). *)
Definition bound_names : list string :=
  ["addon_path_parts"; "addon_name"; "addon_path"; "module_path_parts";
   "enums_options"; "modparts"; "path"; "files"; "modules"; "titles";
   "quaking_aspen"; "options"; "module"; "title";
   "bpy"; "traceback"; "threading"; "imp"; "sys"; "os"; "parametric";
   "lsystems"; "_get_tree_types"; "TreeGen"; "TreeGenPanel"].

Definition lookup_name {A} (name : string) (v : A) : exc + A :=
  if existsb (String.eqb name) bound_names then inr v else inl NameError.

(** [_get_tree_types()]: [file] is [__file__]; [listdir] lists a directory
    (or fails).  The result stands for the two [EnumProperty] calls: each
    folder's items with the default they are built with. *)
Definition _get_tree_types (file : string)
    (listdir : string -> option (list (string * bool)))
  : exc + list (list option_item * string) :=
  let addon_path_parts := removelast (split_on sep file) in
  match rev addon_path_parts with
  | [] => inl IndexError
  | addon_name :: _ =>
    let addon_path := String.concat (String sep EmptyString) addon_path_parts in
    let fix go (mps : list (list string)) (enums : list (list option_item))
        (qa : string) : exc + list (list option_item * string) :=
      match mps with
      | [] =>
        (* enum_options[0].append(('custom', 'Custom' 'Custom parameters')),
           a 2-tuple, recorded here with an empty hover text; then one
           EnumProperty per folder *)
        match lookup_name "enum_options" enums with
        | inl e => inl e
        | inr enums' =>
          match enums' with
          | [] => inl IndexError
          | e0 :: es =>
            inr (map (fun opts => (opts, qa))
                     ((e0 ++ [("custom", "CustomCustom parameters", "")])%list :: es))
          end
        end
      | modparts :: mps' =>
        let path := fold_left path_join modparts addon_path in
        match listdir path with
        | None => inl OSError
        | Some entries =>
          match folder_options addon_name modparts (listed_files entries) with
          | inl e => inl e
          | inr (options, qa') =>
            match lookup_name "enum_options" enums with
            | inl e => inl e
            | inr enums' => go mps' (enums' ++ [options])%list qa'
            end
          end
        end
      end in
    go module_path_parts [] ""
  end.

End TreeTypes.

(** ** [TreeGenPanel.draw] of [ch_trees/gui.py] *)
Module Panel.
Import Gui.

(** What [draw] adds to the panel layout, in order. *)
Inductive item :=
| RowItem
| PropItem (prop : string)
| LabelItem (text : string)
| SeparatorItem
| OperatorItem (idname : string).

Definition DrawM : Type := list item -> (Py.exc + unit) * list item.

Definition dret : DrawM := fun l => (inr tt, l).
Definition dseq (c k : DrawM) : DrawM :=
  fun l => match c l with
           | (inl e, l') => (inl e, l')
           | (inr _, l') => k l'
           end.
Definition add (i : item) : DrawM := fun l => (inr tt, (l ++ [i])%list).
Definition draise (e : Py.exc) : DrawM := fun l => (inl e, l).

Local Notation "c ;; k" := (dseq c k) (at level 61, right associativity).

(** [label_row(label, prop, separator, one_row)] *)
Definition label_row (label prop : string) (separator one_row : bool) : DrawM :=
  add RowItem ;;
  (if one_row || String.eqb label ""
   then add (PropItem prop) ;; (if String.eqb label "" then dret else add (LabelItem label))
   else add (LabelItem label) ;; add RowItem ;; add (PropItem prop)) ;;
  (if separator then add SeparatorItem else dret).

(** The string-valued scene properties gui.py registers, by name. *)
Definition scene_str_attr (sc : Scene) (name : string) : option string :=
  if String.eqb name "tree_gen_method_input" then Some (tree_gen_method_input sc)
  else if String.eqb name "para_tree_type_input" then Some (para_tree_type_input sc)
  else if String.eqb name "lsys_tree_type_input" then Some (lsys_tree_type_input sc)
  else if String.eqb name "render_output_path_input" then Some (render_output_path_input sc)
  else None.

Definition tree_gen_bl_idname : string := "object.tree_gen".

Definition is_prop (i : item) : bool :=
  match i with PropItem _ => true | _ => false end.

(** [TreeGenPanel.draw(self, context)].  Reading a scene property that was
    never registered raises [AttributeError]; with [tree_shape_input == 8]
    the customizer block only passes. *)
Definition draw (sc : Scene) : DrawM :=
  let mode := tree_gen_method_input sc in
  let parametric := String.eqb mode "parametric" in
  label_row "Method:" "tree_gen_method_input" true false ;;
  label_row "Tree Type:"
    (if parametric then "para_tree_type_input" else "lsys_tree_type_input") true false ;;
  (if parametric then label_row "Seed:" "seed_input" true false else dret) ;;
  label_row "" "generate_leaves_input" false true ;;
  label_row "" "simplify_geometry_input" true true ;;
  (if parametric then
     label_row "" "render_input" false true ;;
     (if render_input sc
      then label_row "Render output path:" "render_output_path_input" false false
      else dret) ;;
     add SeparatorItem
   else dret) ;;
  (if parametric then
     match scene_str_attr sc "parametric_tree_type_input" with
     | None => draise Py.AttributeError
     | Some v => if String.eqb v "custom" then add SeparatorItem ;; add RowItem else dret
     end
   else dret) ;;
  add SeparatorItem ;;
  add RowItem ;;
  add (OperatorItem tree_gen_bl_idname).

End Panel.

(** Inputs for [_get_tree_types] and [draw]: an install location of the
    add-on, a folder listing with two presets and a cache directory, and
    scenes in L-system mode and with the 'custom' parametric item. *)
Module GuiFixtures.
Import Gui.

Definition addon_file : string := "/opt/addons/ch_trees/gui.py".

Definition addon_listing (path : string) : option (list (string * bool)) :=
  if String.eqb path "/opt/addons/ch_trees/parametric/tree_params" then
    Some [("black_oak.py", true); ("quaking_aspen.py", true); ("__pycache__", false)]
  else if String.eqb path "/opt/addons/ch_trees/lsystems/sys_defs" then
    Some [("quaking_aspen.py", true); ("__init__.py", true)]
  else None.

Definition lsystem_scene : Scene :=
  {| tree_gen_method_input := "lsystem";
     para_tree_type_input := "ch_trees.parametric.tree_params.quaking_aspen";
     lsys_tree_type_input := "ch_trees.lsystems.sys_defs.quaking_aspen";
     seed_input := 0;
     generate_leaves_input := true;
     simplify_geometry_input := false;
     render_input := false;
     render_output_path_input := "/home/user/treegen_render.png" |}.

Definition custom_scene (render : bool) : Scene :=
  {| tree_gen_method_input := "parametric";
     para_tree_type_input := "custom";
     lsys_tree_type_input := "ch_trees.lsystems.sys_defs.quaking_aspen";
     seed_input := 7;
     generate_leaves_input := false;
     simplify_geometry_input := true;
     render_input := render;
     render_output_path_input := "/home/user/treegen_render.png" |}.

End GuiFixtures.

(** ** Concrete inputs used to evaluate the models *)
Module Fixtures.
Import Py Gui.

(** A preset name and scenes used to evaluate [_construct]. *)
Definition aspen : string := "ch_trees.parametric.tree_params.quaking_aspen".

Definition scene_aspen (simplify : bool) : Scene :=
  {| tree_gen_method_input := "parametric";
     para_tree_type_input := aspen;
     lsys_tree_type_input := "ch_trees.lsystems.sys_defs.quaking_aspen";
     seed_input := 0;
     generate_leaves_input := true;
     simplify_geometry_input := simplify;
     render_input := false;
     render_output_path_input := "/home/user/treegen_render.png" |}.

(** Collaborators that all return normally, except for the parametric
    generator (raising [gen_exc]) and the simplification (raising
    [simplify_exc]) when given. *)
Definition collaborators (gen_exc simplify_exc : option exc) : Collaborators :=
  {| import_reload := fun _ => None;
     parametric_gen_construct := fun _ _ _ _ _ => gen_exc;
     lsystems_gen_construct := fun _ _ => None;
     import_utilities := None;
     simplify_branch_geometry := simplify_exc |}.


(** A customizer request with ratio power and scale variance 0. *)
Definition customizer_zero_request : Customizer.CustomizerParams :=
  let d := Customizer.customizer_defaults in
  {| Customizer.g_scale_input := Customizer.g_scale_input d;
     Customizer.g_scale_v_input := 0;
     Customizer.tree_level_count_input := Customizer.tree_level_count_input d;
     Customizer.tree_ratio_input := Customizer.tree_ratio_input d;
     Customizer.tree_ratio_power_input := 0;
     Customizer.tree_flare_input := Customizer.tree_flare_input d;
     Customizer.tree_floor_split_input := Customizer.tree_floor_split_input d;
     Customizer.tree_base_splits_randomize_input := true;
     Customizer.tree_base_splits_limit_input := 4;
     Customizer.tree_leaf_blos_num_input := Customizer.tree_leaf_blos_num_input d;
     Customizer.tree_leaf_scale := Customizer.tree_leaf_scale d;
     Customizer.tree_leaf_scale_x := Customizer.tree_leaf_scale_x d;
     Customizer.tree_leaf_bend_input := Customizer.tree_leaf_bend_input d;
     Customizer.tree_blossom_scale_input := Customizer.tree_blossom_scale_input d;
     Customizer.tree_blossom_rate_input := Customizer.tree_blossom_rate_input d |}.


(** A parameter set whose level count, 7, is outside its range [1, 6]. *)
Definition level7_params : Customizer.CustomizerParams :=
  let d := Customizer.customizer_defaults in
  {| Customizer.g_scale_input := Customizer.g_scale_input d;
     Customizer.g_scale_v_input := Customizer.g_scale_v_input d;
     Customizer.tree_level_count_input := 7;
     Customizer.tree_ratio_input := Customizer.tree_ratio_input d;
     Customizer.tree_ratio_power_input := Customizer.tree_ratio_power_input d;
     Customizer.tree_flare_input := Customizer.tree_flare_input d;
     Customizer.tree_floor_split_input := Customizer.tree_floor_split_input d;
     Customizer.tree_base_splits_randomize_input := false;
     Customizer.tree_base_splits_limit_input := Customizer.tree_base_splits_limit_input d;
     Customizer.tree_leaf_blos_num_input := Customizer.tree_leaf_blos_num_input d;
     Customizer.tree_leaf_scale := Customizer.tree_leaf_scale d;
     Customizer.tree_leaf_scale_x := Customizer.tree_leaf_scale_x d;
     Customizer.tree_leaf_bend_input := Customizer.tree_leaf_bend_input d;
     Customizer.tree_blossom_scale_input := Customizer.tree_blossom_scale_input d;
     Customizer.tree_blossom_rate_input := Customizer.tree_blossom_rate_input d |}.

(** A stem synthesis that adds a trunk to the skeleton. *)
Definition grow_trunk (p : Customizer.CustomizerParams) (seed : Z)
  : ParamValidation.GenM unit :=
  fun sk => (inr tt, (sk ++ [{| ParamValidation.ps_level := 0;
                                ParamValidation.ps_parent := None |}])%list).

(** The grammar of the spec's scenario: axiom F, F -> F[+F]F[-F]F, two
    iterations; and a grammar whose axiom closes a bracket it never opened. *)
Definition scenario_grammar : LSystem.Grammar :=
  {| LSystem.axiom := list_ascii_of_string "F";
     LSystem.rules := [("F"%char, list_ascii_of_string "F[+F]F[-F]F")];
     LSystem.iterations := 2 |}.
Definition extra_pop_grammar : LSystem.Grammar :=
  {| LSystem.axiom := list_ascii_of_string "F]F";
     LSystem.rules := [("F"%char, list_ascii_of_string "F[+F]F")];
     LSystem.iterations := 1 |}.


(** A stem synthesis whose endpoint rises as high as the requested length,
    with a counter as random state, and an envelope of height 5. *)
Definition grow_straight (len : Q) (rng : Z) : Pruning.Candidate * Z :=
  ({| Pruning.c_length := len; Pruning.c_end := (0, 0, len)%Q |}, (rng + 1)%Z).
Definition envelope_height5 (pp : Pruning.PruneParams) (pt : Pruning.Point) : bool :=
  let '(_, _, z) := pt in Qle_bool z 5.
Definition prune_params (ratio : Q) : Pruning.PruneParams :=
  {| Pruning.prune_ratio := ratio; Pruning.prune_width := 1 # 2;
     Pruning.prune_width_peak := 1 # 2; Pruning.prune_power_low := 1 # 2;
     Pruning.prune_power_high := 1 # 2 |}.


(** Ring vertices laid out by offsetting the centre, the squared euclidean
    distance, a two-sample trunk of radius 3 with a two-sample branch, and
    one leaf. *)
Definition ring_offset (c : MeshBuilder.Point) (r : Z) (j n : nat) : MeshBuilder.Point :=
  let '(x, y, z) := c in (x + r * Z.of_nat j, y + r, z)%Z.
Definition dist2_euclid (a b : MeshBuilder.Point) : Z :=
  let '(x1, y1, z1) := a in let '(x2, y2, z2) := b in
  ((x1 - x2) * (x1 - x2) + (y1 - y2) * (y1 - y2) + (z1 - z2) * (z1 - z2))%Z.
Definition trunk_and_branch : list MeshBuilder.MStem :=
  [{| MeshBuilder.ms_parent := None;
      MeshBuilder.ms_samples := [((0, 0, 0), 3); ((0, 0, 10), 3)]%Z |};
   {| MeshBuilder.ms_parent := Some 0%nat;
      MeshBuilder.ms_samples := [((1, 0, 5), 1); ((4, 0, 8), 1)]%Z |}].
Definition one_leaf : list MeshBuilder.Instance :=
  [{| MeshBuilder.inst_corners :=
        ((4, 0, 8), (5, 0, 8), (5, 1, 9), (4, 1, 9))%Z |}].

End Fixtures.

(** * Properties *)

Module BlenderFacts.
Import Blender.

Lemma int_assign_range p v :
  (ip_min p <= ip_max p -> ip_min p <= int_assign p v <= ip_max p)%Z.
Proof.
  unfold int_assign; intros H.
  destruct (Z.ltb_spec v (ip_min p)); [lia|].
  destruct (Z.ltb_spec (ip_max p) v); lia.
Qed.

Lemma int_assign_id p v :
  (ip_min p <= v <= ip_max p)%Z -> int_assign p v = v.
Proof.
  unfold int_assign; intros H.
  destruct (Z.ltb_spec v (ip_min p)); [lia|].
  destruct (Z.ltb_spec (ip_max p) v); lia.
Qed.

Lemma float_assign_range p v :
  (fp_min p <= fp_max p -> fp_min p <= float_assign p v <= fp_max p)%Q.
Proof.
  unfold float_assign; intros H.
  destruct (Qle_bool (fp_min p) v) eqn:E1.
  - apply Qle_bool_iff in E1.
    destruct (Qle_bool v (fp_max p)) eqn:E2.
    + apply Qle_bool_iff in E2. split; assumption.
    + split; [assumption | apply Qle_refl].
  - split; [apply Qle_refl | assumption].
Qed.

End BlenderFacts.

Module GuiFacts.
Import Py Blender BlenderFacts Gui Fixtures.

Lemma construct_simplify_extends co sc log :
  exists r, snd (construct_simplify co sc log) = (log ++ r)%list.
Proof.
  unfold construct_simplify.
  destruct (simplify_geometry_input sc); [|exists []; simpl; rewrite app_nil_r; reflexivity].
  destruct (import_utilities co); [exists []; simpl; rewrite app_nil_r; reflexivity|].
  destruct (simplify_branch_geometry co); cbv [bind call ret raise emit try_except traceback_call];
    simpl; eexists; rewrite <- !app_assoc; reflexivity.
Qed.

Lemma seed_assign_clamp s :
  int_assign seed_input_prop s = Z.max 0 (Z.min s 9999999).
Proof.
  unfold int_assign, seed_input_prop; simpl.
  destruct (Z.ltb_spec s 0); [lia|].
  destruct (Z.ltb_spec 9999999 s); lia.
Qed.


(** C2 (corrected): [execute] starts [_construct] on a thread and returns
    [{'FINISHED'}] at once, for every request and whatever the generator
    modules do; the outcome of [_construct] is not part of what it returns. *)
Theorem execute_fire_and_forget (co co' : Collaborators) (ctx : Context) :
  returned (execute co ctx) = ["FINISHED"] /\
  returned (execute co ctx) = returned (execute co' ctx) /\
  thread_target (execute co ctx) = _construct co ctx.
Proof. repeat split. Qed.

(** C2 counterexample: the parametric generator raises [ValueError]; the
    thread running [_construct] ends with that exception while [execute]
    has returned [{'FINISHED'}], no error. *)
Lemma execute_loses_generator_error :
  fst (run (thread_target (execute (collaborators (Some ValueError) None)
                                   {| scene := scene_aspen false |})))
    = inl ValueError /\
  returned (execute (collaborators (Some ValueError) None)
                    {| scene := scene_aspen false |}) = ["FINISHED"].
Proof. vm_compute. split; reflexivity. Qed.

(** C9 (corrected): the seed property stores every integer clamped to
    [[0, 9999999]], and in parametric mode the stored seed is the one passed
    to [parametric.gen.construct]; a seed inside the range arrives
    unchanged. *)
Theorem seed_input_clamped_to_generator (co : Collaborators) (sc : Scene) (s : Z)
  (Hpara : String.prefix "ch_trees.parametric" (construct_mod_name sc) = true)
  (Himport : import_reload co (construct_mod_name sc) = None) :
  (exists rest,
     snd (run (_construct co {| scene := set_seed_input sc s |})) =
     ParametricCall (construct_mod_name sc) (Z.max 0 (Z.min s 9999999))
       (render_input sc) (render_output_path_input sc)
       (generate_leaves_input sc) :: rest) /\
  ((0 <= s <= 9999999)%Z -> Z.max 0 (Z.min s 9999999) = s).
Proof.
  split; [|lia].
  assert (Hm : construct_mod_name (set_seed_input sc s) = construct_mod_name sc)
    by reflexivity.
  unfold run, _construct. cbn [scene]. unfold construct_generate. cbv zeta.
  rewrite Hm, Hpara, Himport.
  cbv [bind call ret emit].
  rewrite <- seed_assign_clamp.
  change (seed_input (set_seed_input sc s)) with (int_assign seed_input_prop s).
  destruct (parametric_gen_construct co (construct_mod_name sc) _ _ _ _).
  - eexists; reflexivity.
  - simpl.
    destruct (construct_simplify_extends co (set_seed_input sc s)
                [ParametricCall (construct_mod_name sc) (int_assign seed_input_prop s)
                   (render_input sc) (render_output_path_input sc)
                   (generate_leaves_input sc)]) as [r Hr].
    rewrite Hr. eexists; reflexivity.
Qed.

Lemma seed_input_clamped_to_generator_witness :
  String.prefix "ch_trees.parametric" (construct_mod_name (scene_aspen false)) = true /\
  import_reload (collaborators None None) (construct_mod_name (scene_aspen false)) = None /\
  ((exists rest,
     snd (run (_construct (collaborators None None)
                 {| scene := set_seed_input (scene_aspen false) 4242 |})) =
     ParametricCall (construct_mod_name (scene_aspen false)) (Z.max 0 (Z.min 4242 9999999))
       false "/home/user/treegen_render.png" true :: rest) /\
   ((0 <= 4242 <= 9999999)%Z -> Z.max 0 (Z.min 4242 9999999) = 4242%Z)).
Proof.
  split; [reflexivity|]. split; [reflexivity|].
  apply (seed_input_clamped_to_generator (collaborators None None) (scene_aspen false) 4242);
    reflexivity.
Defined.

(** C9 counterexample: the non-negative seed 10000000 reaches the
    parametric generator as 9999999. *)
Lemma seed_above_max_is_clamped :
  hd_error (snd (run (_construct (collaborators None None)
                        {| scene := set_seed_input (scene_aspen false) 10000000 |})))
  = Some (ParametricCall aspen 9999999 false "/home/user/treegen_render.png" true).
Proof. vm_compute. reflexivity. Qed.

(** C10 (code bug): when simplification is enabled and
    [utilities.simplify_branch_geometry] raises, the [except] handler itself
    raises [AttributeError] (the [traceback] module has no [print_exec]), so
    [_construct] ends with that exception and never reports completion. *)
Theorem construct_simplify_failure_escapes (co : Collaborators) (ctx : Context)
  (e : exc)
  (Hflag : simplify_geometry_input (scene ctx) = true)
  (Hgen : fst (run (construct_generate co (scene ctx))) = inr tt)
  (Hutil : import_utilities co = None)
  (Hsimp : simplify_branch_geometry co = Some e) :
  fst (run (_construct co ctx)) = inl AttributeError /\
  ~ In (Stdout simplify_done_msg) (snd (run (_construct co ctx))).
Proof.
  unfold run in *. unfold _construct.
  unfold bind at 1.
  destruct (construct_generate co (scene ctx) []) as [r log] eqn:Hg.
  simpl in Hgen. subst r.
  assert (Hlog : forall ev, In ev log ->
            match ev with ParametricCall _ _ _ _ _ | LsystemCall _ _ => True | _ => False end).
  { unfold construct_generate in Hg.
    destruct (String.prefix _ _);
      [destruct (import_reload co _); [discriminate|];
       destruct (parametric_gen_construct co _ _ _ _ _); [discriminate|]
      |destruct (lsystems_gen_construct co _ _); [discriminate|]];
      cbv in Hg; injection Hg as <-; intros ev [<-|[]]; exact I. }
  unfold construct_simplify. rewrite Hflag, Hutil, Hsimp.
  cbv [bind call ret raise emit try_except traceback_call].
  simpl. split; [reflexivity|].
  rewrite Hg. simpl. rewrite <- app_assoc. simpl. intros Hin.
  apply in_app_or in Hin as [Hin|[Hin|[Hin|[]]]].
  - exact (Hlog _ Hin).
  - inversion Hin.
  - discriminate.
Qed.

(** C10 failing input: a parametric preset with simplification enabled and
    a simplification that raises [RuntimeError]. *)
Lemma construct_simplify_failure_escapes_witness :
  fst (run (_construct (collaborators None (Some RuntimeError))
                       {| scene := scene_aspen true |})) = inl AttributeError /\
  ~ In (Stdout simplify_done_msg)
       (snd (run (_construct (collaborators None (Some RuntimeError))
                             {| scene := scene_aspen true |}))).
Proof.
  apply (construct_simplify_failure_escapes _ _ RuntimeError);
    vm_compute; reflexivity.
Defined.

End GuiFacts.

Module CustomizerFacts.
Import Py Blender BlenderFacts Customizer Fixtures.

(** C7 (code bug): [_get_params_from_customizer] never yields a split
    count.  As written it raises [NameError] ([scene] is not bound in
    gui.py); were [scene] bound it would still return [None]; and its
    "randomized" split count is the configured count itself, with no random
    draw. *)
Theorem get_params_from_customizer_returns_no_split_count :
  (forall log, fst (_get_params_from_customizer gui_global_scene log) = inl NameError) /\
  (forall sc log, fst (_get_params_from_customizer (Some sc) log) = inr None) /\
  (forall sc, customizer_base_splits sc = tree_base_splits_limit_input sc).
Proof.
  split; [reflexivity|]. split; [reflexivity|].
  intros sc. unfold customizer_base_splits.
  destruct (tree_base_splits_randomize_input sc); [apply Z.mul_1_r | reflexivity].
Qed.

(** The range invariant as the claim states it. *)
Definition claimed_invariant (p : CustomizerParams) : Prop :=
  (0 < g_scale_input p)%Q /\ (0 < g_scale_v_input p)%Q /\
  (0 < tree_ratio_input p)%Q /\ (0 < tree_ratio_power_input p)%Q /\
  (0 < tree_leaf_scale p)%Q /\ (0 < tree_leaf_scale_x p)%Q /\
  (0 < tree_blossom_scale_input p)%Q /\
  (0 <= tree_floor_split_input p)%Z /\
  (1 <= tree_level_count_input p <= 6)%Z.

Lemma float_assign_pos p v :
  (0 < fp_min p)%Q -> (fp_min p <= fp_max p)%Q -> (0 < float_assign p v)%Q.
Proof.
  intros H1 H2. destruct (float_assign_range p v H2) as [H3 _].
  apply (Qlt_le_trans _ _ _ H1 H3).
Qed.

Lemma float_assign_nonneg p v :
  (0 <= fp_min p)%Q -> (fp_min p <= fp_max p)%Q -> (0 <= float_assign p v)%Q.
Proof.
  intros H1 H2. destruct (float_assign_range p v H2) as [H3 _].
  apply (Qle_trans _ _ _ H1 H3).
Qed.

Ltac prop_bounds :=
  first
  [ apply float_assign_pos; vm_compute; congruence
  | apply float_assign_nonneg; vm_compute; congruence
  | match goal with
    |- context [int_assign ?p ?v] =>
      pose proof (int_assign_range p v ltac:(vm_compute; congruence));
      simpl in *; lia
    end ].

(** C8 (corrected): every value the customizer holds lies within its
    declared min/max (baseScale in [0.000001, 150], levelCount in [1, 6],
    ratio in [0.000001, 1], floorSplits in [0, 500], ...); so levelCount
    is between 1 and 6 and baseScale, ratio, leaf scale, leaf scaleX and
    blossom scale are strictly positive, while scaleVariance, ratioPower,
    flare, floorSplits, baseSplits, leaf count, bend and blossom rate are
    only non-negative: a requested 0 is stored as 0 for each of them. *)
Theorem customizer_store_ranges (req : CustomizerParams) :
  let p := customizer_store req in
  in_declared_ranges p /\
  (1 <= tree_level_count_input p <= 6)%Z /\
  (0 < g_scale_input p)%Q /\ (0 < tree_ratio_input p)%Q /\
  (0 < tree_leaf_scale p)%Q /\ (0 < tree_leaf_scale_x p)%Q /\
  (0 < tree_blossom_scale_input p)%Q /\
  (g_scale_v_input req = 0%Q -> g_scale_v_input p = 0%Q) /\
  (tree_ratio_power_input req = 0%Q -> tree_ratio_power_input p = 0%Q) /\
  (tree_flare_input req = 0%Q -> tree_flare_input p = 0%Q) /\
  (tree_floor_split_input req = 0%Z -> tree_floor_split_input p = 0%Z) /\
  (tree_base_splits_limit_input req = 0%Z -> tree_base_splits_limit_input p = 0%Z) /\
  (tree_leaf_blos_num_input req = 0%Z -> tree_leaf_blos_num_input p = 0%Z) /\
  (tree_leaf_bend_input req = 0%Q -> tree_leaf_bend_input p = 0%Q) /\
  (tree_blossom_rate_input req = 0%Q -> tree_blossom_rate_input p = 0%Q).
Proof.
  cbv zeta. unfold in_declared_ranges.
  cbn [customizer_store tree_level_count_input g_scale_input
    tree_ratio_input tree_leaf_scale tree_leaf_scale_x tree_blossom_scale_input
    g_scale_v_input tree_ratio_power_input tree_flare_input
    tree_floor_split_input tree_base_splits_limit_input tree_leaf_blos_num_input
    tree_leaf_bend_input tree_blossom_rate_input].
  repeat split;
    first
    [ prop_bounds
    | apply float_assign_range; vm_compute; congruence
    | apply int_assign_range; vm_compute; congruence
    | apply float_assign_range; vm_compute; congruence
    | intros Hz; rewrite Hz; vm_compute; reflexivity ].
Qed.

(** C8 counterexample: a request with ratio power 0 and scale variance 0 is
    stored as is, so the stored parameter set has ratio and scale fields
    equal to 0. *)
Lemma customizer_admits_zero_ratio_power :
  tree_ratio_power_input (customizer_store customizer_zero_request) = 0%Q /\
  g_scale_v_input (customizer_store customizer_zero_request) = 0%Q /\
  ~ claimed_invariant (customizer_store customizer_zero_request).
Proof.
  split; [reflexivity|]. split; [reflexivity|].
  intros (_ & _ & _ & H & _). vm_compute in H. discriminate.
Qed.

End CustomizerFacts.

Module ValidationFacts.
Import Customizer ParamValidation Fixtures.

Lemma validate_finds_bad_field p f :
  In (f, false) (param_checks p) ->
  exists f', validate p = Some f' /\ In (f', false) (param_checks p).
Proof.
  intros H. unfold validate.
  destruct (find (fun c => negb (snd c)) (param_checks p)) as [[f' b]|] eqn:E.
  - apply find_some in E as [Hin Hb]. simpl in Hb.
    apply negb_true_iff in Hb. subst b. exists f'. split; [reflexivity|exact Hin].
  - exfalso. pose proof (find_none _ _ E _ H) as Hn. discriminate Hn.
Qed.

(** C3 (spec-modelled): a parameter set with a field outside its documented
    range is rejected with [InvalidParameter] naming such a field, the stem
    synthesis never runs, and the skeleton state is returned unchanged. *)
Theorem generate_rejects_out_of_range
  (grow : CustomizerParams -> Z -> GenM unit) (p : CustomizerParams) (seed : Z)
  (sk : list PStem) (f : string) (Hbad : In (f, false) (param_checks p)) :
  exists f', generate grow p seed sk = (inl (InvalidParameter f'), sk) /\
             In (f', false) (param_checks p).
Proof.
  destruct (validate_finds_bad_field p f Hbad) as (f' & Hv & Hin).
  exists f'. unfold generate. rewrite Hv. split; [reflexivity | exact Hin].
Qed.

Lemma generate_rejects_out_of_range_witness :
  In ("levelCount", false) (param_checks level7_params) /\
  exists f', generate grow_trunk level7_params 0 [] = (inl (InvalidParameter f'), []) /\
             In (f', false) (param_checks level7_params).
Proof.
  split; [vm_compute; tauto|].
  apply (generate_rejects_out_of_range grow_trunk level7_params 0 [] "levelCount").
  vm_compute; tauto.
Defined.

End ValidationFacts.

Module LSystemFacts.
Import LSystem Fixtures.
Local Open Scope nat_scope.
Local Open Scope list_scope.

Lemma add_point_shape i p sk : shape (add_point i p sk) = shape sk.
Proof.
  unfold add_point. revert i.
  induction sk as [|s sk IH]; intros [|i]; simpl; try reflexivity.
  now rewrite IH.
Qed.

Lemma shape_length sk : length (shape sk) = length sk.
Proof. apply length_map. Qed.

Lemma level_of_shape sk i :
  level_of sk i = match nth_error (shape sk) i with Some (_, l) => l | None => 0 end.
Proof.
  unfold level_of, shape. rewrite nth_error_map.
  destruct (nth_error sk i); reflexivity.
Qed.

Lemma level_of_add_point i p sk j : level_of (add_point i p sk) j = level_of sk j.
Proof. rewrite !level_of_shape, add_point_shape. reflexivity. Qed.

Lemma length_add_point i p sk : length (add_point i p sk) = length sk.
Proof. rewrite <- shape_length, add_point_shape, shape_length. reflexivity. Qed.

(** [well_parented] depends only on the shape. *)
Definition wp_shape (sh : list (option nat * nat)) : Prop :=
  forall i par lvl, nth_error sh i = Some (par, lvl) ->
    match par with
    | None => i = 0 /\ lvl = 0
    | Some p => p < i /\ lvl = S (match nth_error sh p with Some (_, l) => l | None => 0 end)
    end.

Lemma well_parented_shape sk : well_parented sk <-> wp_shape (shape sk).
Proof.
  unfold well_parented, wp_shape. split.
  - intros H i par lvl Hi. unfold shape in Hi. rewrite nth_error_map in Hi.
    destruct (nth_error sk i) as [s|] eqn:E; [|discriminate].
    injection Hi as <- <-. specialize (H i s E).
    destruct (ls_parent s); [rewrite <- level_of_shape|]; exact H.
  - intros H i s Hi. specialize (H i (ls_parent s) (ls_level s)).
    unfold shape in H. rewrite nth_error_map, Hi in H. specialize (H eq_refl).
    destruct (ls_parent s); [|exact H].
    rewrite level_of_shape. exact H.
Qed.

Lemma level_of_app_lt sk x i : i < length sk -> level_of (sk ++ x) i = level_of sk i.
Proof. intros H. unfold level_of. rewrite nth_error_app1; auto. Qed.

Fixpoint stack_ok (stack : list Turtle) (sk : list LStem) : Prop :=
  match stack with
  | [] => True
  | t :: st => t_stem t < length sk /\ level_of sk (t_stem t) = length st /\ stack_ok st sk
  end.

Lemma stack_ok_add_point stack i p sk : stack_ok stack sk -> stack_ok stack (add_point i p sk).
Proof.
  induction stack as [|t st IH]; simpl; auto.
  intros (H1 & H2 & H3). rewrite length_add_point, level_of_add_point. auto.
Qed.

Lemma stack_ok_app stack sk x : stack_ok stack sk -> stack_ok stack (sk ++ x).
Proof.
  induction stack as [|t st IH]; simpl; auto.
  intros (H1 & H2 & H3). rewrite length_app, level_of_app_lt by exact H1.
  repeat split; auto; lia.
Qed.

Lemma well_parented_add_point i p sk : well_parented sk -> well_parented (add_point i p sk).
Proof. rewrite !well_parented_shape, add_point_shape. auto. Qed.

Lemma well_parented_push sk t :
  well_parented sk -> t_stem t < length sk ->
  well_parented (sk ++ [{| ls_parent := Some (t_stem t);
                           ls_level := S (level_of sk (t_stem t));
                           ls_points := [t_pos t] |}]).
Proof.
  intros Hw Ht i s Hi.
  destruct (Nat.lt_ge_cases i (length sk)) as [Hlt|Hge].
  - rewrite nth_error_app1 in Hi by exact Hlt.
    specialize (Hw i s Hi). destruct (ls_parent s) as [p|] eqn:Ep; [|exact Hw].
    destruct Hw as [Hp Hl]. split; [exact Hp|].
    rewrite level_of_app_lt by lia. exact Hl.
  - rewrite nth_error_app2 in Hi by exact Hge.
    destruct (i - length sk) as [|k] eqn:Ek; [|destruct k; discriminate].
    injection Hi as <-. simpl. split; [lia|].
    rewrite level_of_app_lt by exact Ht. reflexivity.
Qed.

Lemma level_of_last sk x : level_of (sk ++ [x]) (length sk) = ls_level x.
Proof. unfold level_of. rewrite nth_error_app2, Nat.sub_diag by lia. reflexivity. Qed.

Ltac char_cases c :=
  destruct (Ascii.eqb c "[") eqn:Eo;
  [apply Ascii.eqb_eq in Eo; subst c; simpl in * |
   destruct (Ascii.eqb c "]") eqn:Ec;
   [apply Ascii.eqb_eq in Ec; subst c; simpl in * | ]].

Lemma turtle_run_balanced w : forall t stack sk,
  balanced_from (length stack) w = true ->
  well_parented sk ->
  t_stem t < length sk -> level_of sk (t_stem t) = length stack ->
  stack_ok stack sk ->
  exists sk', turtle_run w t stack sk = inr sk' /\ well_parented sk' /\
    map ls_level sk' = map ls_level sk ++ open_depths_from (length stack) w.
Proof.
  induction w as [|c w IH]; intros t stack sk Hb Hw Ht Hl Hs.
  - simpl in Hb. destruct stack; [|discriminate].
    exists sk. simpl. rewrite app_nil_r. auto.
  - char_cases c.
    + (* [ *)
      set (child := {| ls_parent := Some (t_stem t);
                       ls_level := S (level_of sk (t_stem t));
                       ls_points := [t_pos t] |}).
      destruct (IH (enter_stem t (length sk)) (t :: stack) (sk ++ [child]))
        as (sk' & Hr & Hw' & Hm).
      * exact Hb.
      * apply well_parented_push; assumption.
      * simpl. rewrite length_app. simpl. lia.
      * simpl. rewrite level_of_last. simpl. rewrite Hl. reflexivity.
      * simpl. split; [rewrite length_app; simpl; lia|].
        rewrite level_of_app_lt by exact Ht. split; [exact Hl|].
        apply stack_ok_app; exact Hs.
      * exists sk'. split; [exact Hr|]. split; [exact Hw'|].
        rewrite Hm, map_app, <- app_assoc. simpl. rewrite Hl. reflexivity.
    + (* ] *)
      destruct stack as [|t0 st]; [discriminate|].
      destruct Hs as (H1 & H2 & H3).
      destruct (IH t0 st sk Hb Hw H1 H2 H3) as (sk' & Hr & Hw' & Hm).
      exists sk'. auto.
    + (* every other symbol *)
      assert (Hb' : balanced_from (length stack) w = true)
        by (simpl in Hb; rewrite Eo, Ec in Hb; exact Hb).
      assert (Hod : open_depths_from (length stack) (c :: w) =
                    open_depths_from (length stack) w)
        by (simpl; rewrite Eo, Ec; reflexivity).
      rewrite Hod. simpl.
      destruct (Ascii.eqb c "F").
      { destruct (IH (move_to t (advance t)) stack (add_point (t_stem t) (advance t) sk))
          as (sk' & Hr & Hw' & Hm).
        - exact Hb'.
        - apply well_parented_add_point; exact Hw.
        - rewrite length_add_point. exact Ht.
        - rewrite level_of_add_point. exact Hl.
        - apply stack_ok_add_point; exact Hs.
        - exists sk'. split; [exact Hr|]. split; [exact Hw'|].
          rewrite Hm. unfold add_point.
          replace (map ls_level (update_nth _ (t_stem t) sk)) with (map ls_level sk);
            [reflexivity|].
          pose proof (add_point_shape (t_stem t) (advance t) sk) as Hsh.
          apply (f_equal (map snd)) in Hsh. unfold shape in Hsh.
          rewrite !map_map in Hsh. simpl in Hsh. symmetry. exact Hsh. }
      destruct (Ascii.eqb c "f"); [apply IH; assumption|].
      destruct (Ascii.eqb c "+"); [apply IH; assumption|].
      destruct (Ascii.eqb c "-"); [apply IH; assumption|].
      rewrite Eo, Ec. apply IH; assumption.
Qed.

Lemma turtle_run_unmatched w : forall t stack sk,
  unmatched_close_from (length stack) w = true ->
  turtle_run w t stack sk = inl MalformedGrammar.
Proof.
  induction w as [|c w IH]; intros t stack sk Hu; [discriminate|].
  char_cases c.
  - apply (IH _ (t :: stack)). exact Hu.
  - destruct stack as [|t0 st]; [reflexivity|]. apply IH. exact Hu.
  - assert (Hu' : unmatched_close_from (length stack) w = true)
      by (simpl in Hu; rewrite Eo, Ec in Hu; exact Hu).
    simpl.
    destruct (Ascii.eqb c "F"); [apply IH; exact Hu'|].
    destruct (Ascii.eqb c "f"); [apply IH; exact Hu'|].
    destruct (Ascii.eqb c "+"); [apply IH; exact Hu'|].
    destruct (Ascii.eqb c "-"); [apply IH; exact Hu'|].
    rewrite Eo, Ec. apply IH; exact Hu'.
Qed.


(** C4 (spec-modelled): for a grammar whose expansion is balanced (as many
    pushes as pops, every pop after its push), the interpreter builds a
    skeleton in which every stem but the root hangs below an earlier stem
    one level deeper, and the levels of the stems are, in order, 0 for the
    root and the bracket nesting depth of each [[]; for a grammar whose
    expansion has a pop with no open push, it fails with
    [MalformedGrammar]. *)
Theorem lsystem_bracket_nesting (g : Grammar) :
  (balanced (expand g) = true ->
   exists sk, lsystem_generate g = inr sk /\ well_parented sk /\
              map ls_level sk = 0 :: open_depths (expand g)) /\
  (unmatched_close (expand g) = true -> lsystem_generate g = inl MalformedGrammar).
Proof.
  split.
  - intros Hb. unfold lsystem_generate, interpret.
    destruct (turtle_run_balanced (expand g) turtle0 [] [root_stem]) as (sk & Hr & Hw & Hm).
    + exact Hb.
    + intros [|[|i]] s Hi; try discriminate.
      injection Hi as <-. simpl. auto.
    + simpl; lia.
    + reflexivity.
    + exact I.
    + exists sk. auto.
  - intros Hu. apply turtle_run_unmatched. exact Hu.
Qed.

Lemma lsystem_bracket_nesting_witness :
  (exists sk, lsystem_generate scenario_grammar = inr sk /\ well_parented sk /\
              map ls_level sk = 0 :: open_depths (expand scenario_grammar)) /\
  lsystem_generate extra_pop_grammar = inl MalformedGrammar.
Proof.
  split.
  - apply (proj1 (lsystem_bracket_nesting scenario_grammar)). vm_compute. reflexivity.
  - apply (proj2 (lsystem_bracket_nesting extra_pop_grammar)). vm_compute. reflexivity.
Defined.

End LSystemFacts.

Module PruningFacts.
Import Pruning Fixtures.
Local Open Scope nat_scope.
Local Open Scope list_scope.

Section Facts.
Variable Rng : Type.
Variable grow_stem : Q -> Rng -> Candidate * Rng.
Variable inside_envelope : PruneParams -> Point -> bool.
Variable pp : PruneParams.

Lemma prune_loop_bounds fuel : forall len rng d,
  let r := prune_loop Rng grow_stem inside_envelope pp fuel len rng d in
  d <= discarded r <= d + fuel /\
  ((warnings r = [] /\ inside_envelope pp (c_end (accepted r)) = true) \/
   (warnings r = [PruningExhausted] /\ discarded r = d + fuel)).
Proof.
  induction fuel as [|f IH]; intros len rng d; simpl;
    destruct (grow_stem len rng) as [cand rng'];
    destruct (inside_envelope pp (c_end cand)) eqn:E; simpl.
  - split; [lia|]. left; auto.
  - split; [lia|]. right; split; [reflexivity|lia].
  - split; [lia|]. left; auto.
  - destruct (IH (len * prune_shrink)%Q rng' (S d)) as [H1 H2]. split; [lia|].
    destruct H2 as [H2|[H2 H3]]; [left; exact H2 | right; split; [exact H2|lia]].
Qed.

Lemma place_stem_no_pruning len rng :
  (prune_ratio pp == 0)%Q ->
  discarded (place_stem Rng grow_stem inside_envelope pp len rng) = 0 /\
  warnings (place_stem Rng grow_stem inside_envelope pp len rng) = [].
Proof.
  intros H. apply Qeq_bool_iff in H. unfold place_stem. rewrite H.
  destruct (grow_stem len rng). split; reflexivity.
Qed.

End Facts.

(** C6 (spec-modelled): placing a stem always returns, after at most
    [max_prune_retries] discarded candidates; the accepted stem lies in the
    envelope, or pruning is off, or the retries are used up and a single
    [PruningExhausted] warning comes with the last candidate.  With pruning
    ratio 0 no candidate of any stem of a level is discarded and no warning
    is raised. *)
Theorem pruning_bounded_and_off_at_ratio_zero
  (Rng : Type) (grow_stem : Q -> Rng -> Candidate * Rng)
  (inside_envelope : PruneParams -> Point -> bool) (pp : PruneParams) :
  (forall len rng,
     let r := place_stem Rng grow_stem inside_envelope pp len rng in
     discarded r <= max_prune_retries /\
     ((warnings r = [] /\
       ((prune_ratio pp == 0)%Q \/ inside_envelope pp (c_end (accepted r)) = true)) \/
      (warnings r = [PruningExhausted] /\ discarded r = max_prune_retries))) /\
  ((prune_ratio pp == 0)%Q ->
   forall lens rng,
     let '(cs, d, ws, _) := place_stems Rng grow_stem inside_envelope pp lens rng in
     length cs = length lens /\ d = 0 /\ ws = []).
Proof.
  split.
  - intros len rng. cbv zeta.
    destruct (Qeq_bool (prune_ratio pp) 0) eqn:E.
    + apply Qeq_bool_iff in E.
      destruct (place_stem_no_pruning Rng grow_stem inside_envelope pp len rng E) as [H1 H2].
      rewrite H1, H2. split; [unfold max_prune_retries; lia|]. left; auto.
    + unfold place_stem. rewrite E.
      destruct (prune_loop_bounds Rng grow_stem inside_envelope pp max_prune_retries len rng 0)
        as [H1 [[H2 H3]|[H2 H3]]].
      * split; [lia|]. left; auto.
      * split; [lia|]. right; auto.
  - intros H lens. induction lens as [|len lens IH]; intros rng; [simpl; auto|].
    simpl.
    destruct (place_stems Rng grow_stem inside_envelope pp lens
                (rng_out (place_stem Rng grow_stem inside_envelope pp len rng)))
      as [[[cs d] ws] rng''] eqn:Er.
    specialize (IH (rng_out (place_stem Rng grow_stem inside_envelope pp len rng))).
    rewrite Er in IH. destruct IH as (Hl & Hd & Hw).
    destruct (place_stem_no_pruning Rng grow_stem inside_envelope pp len rng H) as [H1 H2].
    rewrite H1, H2, Hd, Hw. simpl. auto.
Qed.

Lemma pruning_bounded_and_off_at_ratio_zero_witness :
  (let r := place_stem Z grow_straight envelope_height5 (prune_params 1) 20 0%Z in
   discarded r <= max_prune_retries /\
   ((warnings r = [] /\
     ((prune_ratio (prune_params 1) == 0)%Q \/
      envelope_height5 (prune_params 1) (c_end (accepted r)) = true)) \/
    (warnings r = [PruningExhausted] /\ discarded r = max_prune_retries))) /\
  (let '(cs, d, ws, _) :=
     place_stems Z grow_straight envelope_height5 (prune_params 0) [20; 30; 2]%Q 0%Z in
   length cs = 3 /\ d = 0 /\ ws = []).
Proof.
  split.
  - apply (proj1 (pruning_bounded_and_off_at_ratio_zero Z grow_straight envelope_height5
                    (prune_params 1))).
  - apply (proj2 (pruning_bounded_and_off_at_ratio_zero Z grow_straight envelope_height5
                    (prune_params 0))).
    vm_compute. reflexivity.
Defined.

End PruningFacts.

Module MeshFacts.
Import MeshBuilder Fixtures.
Local Open Scope nat_scope.
Local Open Scope list_scope.

Lemma valid_face_mono nv nv' f : nv <= nv' -> valid_face nv f -> valid_face nv' f.
Proof.
  intros Hle (H1 & H2 & H3). split; [exact H1|]. split; [exact H2|].
  eapply Forall_impl; [|exact H3]. simpl. intros; lia.
Qed.

Lemma NoDup3 (a b c : nat) : a <> b -> a <> c -> b <> c -> NoDup [a; b; c].
Proof.
  intros. repeat constructor; simpl; intuition.
Qed.

Lemma NoDup4 (a b c d : nat) :
  a <> b -> a <> c -> a <> d -> b <> c -> b <> d -> c <> d -> NoDup [a; b; c; d].
Proof.
  intros. repeat constructor; simpl; intuition.
Qed.

Lemma next_spec j n : 2 <= n -> j < n -> next j n < n /\ next j n <> j.
Proof. unfold next. destruct (Nat.eqb_spec (S j) n); lia. Qed.

Lemma ring_count_ge3 r : 3 <= ring_count r.
Proof. unfold ring_count. apply Nat.le_max_l. Qed.

Lemma quad_valid base n k j m :
  3 <= n -> j < n -> S k < m -> valid_face (base + m * n) (quad base n k j).
Proof.
  intros Hn Hj Hk. unfold quad.
  destruct (next_spec j n ltac:(lia) Hj) as [Hx Hne].
  assert (Hkn : k * n + n + n <= m * n) by nia.
  simpl. split; [simpl; lia|]. split.
  - apply NoDup4; lia.
  - repeat constructor; lia.
Qed.

Lemma stem_faces_valid base n m :
  3 <= n -> Forall (valid_face (base + m * n)) (stem_faces base n m).
Proof.
  intros Hn. apply Forall_forall. intros f Hf.
  unfold stem_faces in Hf. apply in_flat_map in Hf as (k & Hk & Hf).
  apply in_map_iff in Hf as (j & <- & Hj).
  apply in_seq in Hk, Hj. apply quad_valid; lia.
Qed.

Lemma join_faces_valid base n pv N :
  3 <= n -> pv < base -> base + n <= N -> Forall (valid_face N) (join_faces base n pv).
Proof.
  intros Hn Hpv HN. apply Forall_forall. intros f Hf.
  unfold join_faces in Hf. apply in_map_iff in Hf as (j & <- & Hj).
  apply in_seq in Hj.
  destruct (next_spec j n ltac:(lia) ltac:(lia)) as [Hx Hne].
  split; [simpl; lia|]. split.
  - apply NoDup3; lia.
  - repeat constructor; lia.
Qed.

Section Facts.
Variable ring_point : Point -> Z -> nat -> nat -> Point.
Variable dist2 : Point -> Point -> Z.

Lemma stem_vertices_length samples n :
  length (stem_vertices ring_point samples n) = length samples * n.
Proof.
  induction samples as [|cr samples IH]; [reflexivity|].
  unfold stem_vertices in *. simpl. rewrite length_app, IH.
  unfold ring_vertices. rewrite length_map, length_seq. reflexivity.
Qed.

Lemma nearest_from_lt c l : forall i best bestd,
  best < i -> nearest_from dist2 c l i best bestd < i + length l.
Proof.
  induction l as [|v l IH]; intros i best bestd Hb; simpl; [lia|].
  destruct (dist2 c v <? bestd)%Z.
  - specialize (IH (S i) i (dist2 c v) ltac:(lia)). lia.
  - specialize (IH (S i) best bestd ltac:(lia)). lia.
Qed.

Lemma nearest_lt c l : l <> [] -> nearest dist2 c l < length l.
Proof.
  destruct l as [|v l]; [congruence|]. intros _. simpl.
  pose proof (nearest_from_lt c l 1 0 (dist2 c v) ltac:(lia)). lia.
Qed.

Definition mesh_ok (m : Mesh) : Prop :=
  Forall (valid_face (length (vertices m))) (faces m).

Definition blocks_ok (m : Mesh) (blocks : list (nat * nat)) : Prop :=
  Forall (fun b => fst b + snd b <= length (vertices m)) blocks.

Lemma mesh_ok_grow fs vs m :
  mesh_ok m -> Forall (valid_face (length (vertices m) + length vs)) fs ->
  mesh_ok {| vertices := vertices m ++ vs; faces := faces m ++ fs |}.
Proof.
  unfold mesh_ok. simpl. rewrite length_app. intros H1 H2.
  apply Forall_app. split; [|exact H2].
  eapply Forall_impl; [|exact H1]. intros f. apply valid_face_mono. lia.
Qed.

Lemma add_stem_ok m blocks s :
  mesh_ok m -> blocks_ok m blocks ->
  mesh_ok (fst (add_stem ring_point dist2 (m, blocks) s)) /\
  blocks_ok (fst (add_stem ring_point dist2 (m, blocks) s))
            (snd (add_stem ring_point dist2 (m, blocks) s)).
Proof.
  intros Hm Hb. unfold add_stem.
  destruct (ms_samples s) as [|[c0 r0] rest] eqn:Es.
  - simpl. split; [exact Hm|]. unfold blocks_ok in *.
    apply Forall_app. split; [exact Hb|]. repeat constructor. simpl. lia.
  - set (n := ring_count r0). set (base := length (vertices m)).
    assert (Hn : 3 <= n) by apply ring_count_ge3.
    set (samples := (c0, r0) :: rest).
    assert (Hvs : length (stem_vertices ring_point samples n) = length samples * n)
      by apply stem_vertices_length.
    cbn [fst snd]. split.
    + apply mesh_ok_grow; [exact Hm|]. apply Forall_app. split.
      * fold base. rewrite Hvs. apply stem_faces_valid; exact Hn.
      * destruct (ms_parent s) as [p|]; [|constructor].
        destruct (nth_error blocks p) as [[pb pc]|] eqn:Ep; [|constructor].
        destruct (Nat.ltb_spec 0 pc) as [Hpc|Hpc]; [|constructor].
        apply join_faces_valid; [exact Hn| |].
        -- unfold blocks_ok in Hb. rewrite Forall_forall in Hb.
           pose proof (Hb _ (nth_error_In _ _ Ep)) as Hblk. simpl in Hblk.
           set (l := firstn pc (skipn pb (vertices m))).
           assert (Hl : length l = pc)
             by (unfold l; rewrite length_firstn, length_skipn; lia).
           assert (Hne : l <> []) by (intros E; rewrite E in Hl; simpl in Hl; lia).
           pose proof (nearest_lt c0 l Hne). fold base in Hblk. lia.
        -- rewrite Hvs. simpl. fold base. clearbody n base. lia.
    + unfold blocks_ok in *. cbn [vertices]. rewrite length_app. apply Forall_app. split.
      * eapply Forall_impl; [|exact Hb]. intros b Hb'. cbv beta in Hb'. lia.
      * repeat constructor; cbn [fst snd]; fold base; lia.
Qed.

Lemma fold_add_stem_ok stems : forall m blocks,
  mesh_ok m -> blocks_ok m blocks ->
  mesh_ok (fst (fold_left (add_stem ring_point dist2) stems (m, blocks))).
Proof.
  induction stems as [|s stems IH]; intros m blocks Hm Hb; cbn [fold_left]; [exact Hm|].
  destruct (add_stem ring_point dist2 (m, blocks) s) as [m' b'] eqn:E.
  destruct (add_stem_ok m blocks s Hm Hb) as [H1 H2]. rewrite E in H1, H2.
  apply IH; assumption.
Qed.

Lemma add_instance_ok m i : mesh_ok m -> mesh_ok (add_instance m i).
Proof.
  intros Hm. unfold add_instance.
  destruct (inst_corners i) as [[[a b] c] d].
  apply mesh_ok_grow; [exact Hm|]. constructor; [|constructor].
  split; [simpl; lia|]. split; [apply NoDup4; lia|].
  simpl. repeat constructor; lia.
Qed.

Lemma fold_add_instance_ok insts : forall m,
  mesh_ok m -> mesh_ok (fold_left add_instance insts m).
Proof.
  induction insts as [|i insts IH]; intros m Hm; cbn [fold_left]; [exact Hm|].
  apply IH, add_instance_ok, Hm.
Qed.

End Facts.

(** C5 (spec-modelled): every face of a built mesh has at least 3 indices,
    no repeated index, and only indices of vertices in the vertex buffer,
    whatever the skeleton, the instances, the ring layout and the distance
    used to find join points. *)
Theorem build_mesh_valid
  (ring_point : Point -> Z -> nat -> nat -> Point) (dist2 : Point -> Point -> Z)
  (stems : list MStem) (insts : list Instance) (f : list nat)
  (Hf : In f (faces (build ring_point dist2 stems insts))) :
  3 <= length f /\ NoDup f /\
  (forall i, In i f -> i < length (vertices (build ring_point dist2 stems insts))).
Proof.
  assert (Hok : mesh_ok (build ring_point dist2 stems insts)).
  { unfold build. apply fold_add_instance_ok.
    apply (fold_add_stem_ok ring_point dist2 stems empty_mesh []); constructor. }
  unfold mesh_ok in Hok. rewrite Forall_forall in Hok.
  destruct (Hok f Hf) as (H1 & H2 & H3).
  split; [exact H1|]. split; [exact H2|].
  rewrite Forall_forall in H3. exact H3.
Qed.

Lemma build_mesh_valid_witness :
  In [0; 1; 4; 3] (faces (build ring_offset dist2_euclid trunk_and_branch one_leaf)) /\
  (3 <= length [0; 1; 4; 3] /\ NoDup [0; 1; 4; 3] /\
   (forall i, In i [0; 1; 4; 3] ->
      i < length (vertices (build ring_offset dist2_euclid trunk_and_branch one_leaf)))).
Proof.
  split; [vm_compute; tauto|].
  apply build_mesh_valid. vm_compute; tauto.
Defined.

End MeshFacts.

Module ConstructFacts.
Import Py Gui.
Local Open Scope list_scope.

Lemma construct_generate_events co sc :
  Forall generator_event (snd (construct_generate co sc [])).
Proof.
  unfold construct_generate.
  destruct (String.prefix _ _).
  - destruct (import_reload co _); [constructor|].
    cbv [bind call ret raise emit].
    destruct (parametric_gen_construct co _ _ _ _ _); simpl; repeat constructor.
  - cbv [bind call ret raise emit].
    destruct (lsystems_gen_construct co _ _); simpl; repeat constructor.
Qed.

Lemma construct_simplify_events co sc log :
  exists r, snd (construct_simplify co sc log) = log ++ r /\ Forall simplify_event r.
Proof.
  unfold construct_simplify.
  destruct (simplify_geometry_input sc);
    [|exists []; simpl; rewrite app_nil_r; split; [reflexivity|constructor]].
  destruct (import_utilities co);
    [exists []; simpl; rewrite app_nil_r; split; [reflexivity|constructor]|].
  destruct (simplify_branch_geometry co); cbv [bind call ret raise emit try_except traceback_call];
    simpl; eexists; (split; [rewrite <- !app_assoc; reflexivity|]); repeat constructor.
Qed.

Lemma construct_run co ctx :
  run (_construct co ctx) =
  match construct_generate co (scene ctx) [] with
  | (inl e, log) => (inl e, log)
  | (inr _, log) => construct_simplify co (scene ctx) log
  end.
Proof. reflexivity. Qed.

(** [_construct] picks [para_tree_type_input] in parametric mode and
    [lsys_tree_type_input] otherwise; a name that does not start with
    ['ch_trees.parametric'] (the 'custom' item of the parametric drop-down,
    or any L-system definition) goes to [lsystems.gen.construct] with the
    leaves flag only, and the parametric generator is not called: the seed
    is not passed on. *)
Theorem construct_dispatches_non_parametric_names (co : Collaborators) (sc : Scene)
  (Hname : String.prefix "ch_trees.parametric" (construct_mod_name sc) = false) :
  hd_error (snd (run (_construct co {| scene := sc |}))) =
    Some (LsystemCall (construct_mod_name sc) (generate_leaves_input sc)) /\
  (forall ev, In ev (snd (run (_construct co {| scene := sc |}))) ->
     match ev with ParametricCall _ _ _ _ _ => False | _ => True end).
Proof.
  rewrite construct_run. cbn [scene].
  pose proof (construct_generate_events co sc) as Hg.
  unfold construct_generate in *. rewrite Hname in *.
  cbv [bind call ret raise emit] in *.
  destruct (lsystems_gen_construct co (construct_mod_name sc) (generate_leaves_input sc)).
  - simpl. split; [reflexivity|]. intros ev [<-|[]]. exact I.
  - simpl.
    destruct (construct_simplify_events co sc
                [LsystemCall (construct_mod_name sc) (generate_leaves_input sc)])
      as (r & Hr & Hf).
    rewrite Hr. split; [reflexivity|].
    intros ev [<-|Hin]; [exact I|].
    rewrite Forall_forall in Hf. specialize (Hf ev Hin).
    destruct ev; simpl in *; tauto.
Qed.

(** When the chosen generator raises, or when simplification is enabled and
    importing [utilities] raises, [_construct] raises that exception and
    writes nothing to stdout; simplification is not attempted. *)
Theorem construct_early_failure_is_silent (co : Collaborators) (ctx : Context) (e : exc)
  (Hfail : fst (run (construct_generate co (scene ctx))) = inl e \/
           (fst (run (construct_generate co (scene ctx))) = inr tt /\
            simplify_geometry_input (scene ctx) = true /\ import_utilities co = Some e)) :
  fst (run (_construct co ctx)) = inl e /\
  (forall ev, In ev (snd (run (_construct co ctx))) -> generator_event ev).
Proof.
  rewrite construct_run.
  pose proof (construct_generate_events co (scene ctx)) as Hg.
  unfold run in Hfail.
  destruct (construct_generate co (scene ctx) []) as [r log] eqn:E.
  simpl in Hg. rewrite Forall_forall in Hg.
  destruct Hfail as [H|(H & Hflag & Himp)]; simpl in H; subst r.
  - split; [reflexivity|exact Hg].
  - unfold construct_simplify. rewrite Hflag, Himp. simpl.
    split; [reflexivity|exact Hg].
Qed.

(** When generation, the import of [utilities] and the simplification all
    return normally, [_construct] returns normally; with simplification
    enabled, after the generator call it writes the start message, runs the
    simplification and writes the completion message, and otherwise it
    does nothing more. *)
Theorem construct_completes (co : Collaborators) (ctx : Context)
  (Hgen : fst (run (construct_generate co (scene ctx))) = inr tt)
  (Hutil : import_utilities co = None)
  (Hsimp : simplify_branch_geometry co = None) :
  fst (run (_construct co ctx)) = inr tt /\
  snd (run (_construct co ctx)) =
    snd (run (construct_generate co (scene ctx))) ++
    (if simplify_geometry_input (scene ctx)
     then [Stdout simplify_start_msg; SimplifyCall; Stdout simplify_done_msg]
     else []).
Proof.
  rewrite construct_run. unfold run in *.
  destruct (construct_generate co (scene ctx) []) as [r log] eqn:E.
  simpl in Hgen. subst r. simpl.
  unfold construct_simplify.
  destruct (simplify_geometry_input (scene ctx)).
  - rewrite Hutil, Hsimp. cbv [bind call ret raise emit try_except].
    simpl. rewrite <- !app_assoc. split; reflexivity.
  - simpl. rewrite app_nil_r. split; reflexivity.
Qed.

Lemma construct_dispatches_non_parametric_names_witness :
  String.prefix "ch_trees.parametric"
    (construct_mod_name (GuiFixtures.custom_scene false)) = false /\
  hd_error (snd (run (_construct (Fixtures.collaborators None None)
                        {| scene := GuiFixtures.custom_scene false |}))) =
    Some (LsystemCall (construct_mod_name (GuiFixtures.custom_scene false))
            (generate_leaves_input (GuiFixtures.custom_scene false))) /\
  (forall ev, In ev (snd (run (_construct (Fixtures.collaborators None None)
                                {| scene := GuiFixtures.custom_scene false |}))) ->
     match ev with ParametricCall _ _ _ _ _ => False | _ => True end).
Proof.
  split; [reflexivity|].
  apply (construct_dispatches_non_parametric_names (Fixtures.collaborators None None)
           (GuiFixtures.custom_scene false)).
  reflexivity.
Defined.

Lemma construct_early_failure_is_silent_witness :
  fst (run (construct_generate (Fixtures.collaborators (Some RuntimeError) None)
              (Fixtures.scene_aspen true))) = inl RuntimeError /\
  fst (run (_construct (Fixtures.collaborators (Some RuntimeError) None)
              {| scene := Fixtures.scene_aspen true |})) = inl RuntimeError /\
  (forall ev, In ev (snd (run (_construct (Fixtures.collaborators (Some RuntimeError) None)
                                {| scene := Fixtures.scene_aspen true |}))) ->
     generator_event ev).
Proof.
  split; [reflexivity|].
  apply (construct_early_failure_is_silent (Fixtures.collaborators (Some RuntimeError) None)
           {| scene := Fixtures.scene_aspen true |} RuntimeError).
  left. reflexivity.
Defined.

Lemma construct_completes_witness :
  fst (run (construct_generate (Fixtures.collaborators None None)
              (Fixtures.scene_aspen true))) = inr tt /\
  import_utilities (Fixtures.collaborators None None) = None /\
  simplify_branch_geometry (Fixtures.collaborators None None) = None /\
  fst (run (_construct (Fixtures.collaborators None None)
              {| scene := Fixtures.scene_aspen true |})) = inr tt /\
  snd (run (_construct (Fixtures.collaborators None None)
              {| scene := Fixtures.scene_aspen true |})) =
    snd (run (construct_generate (Fixtures.collaborators None None)
                (Fixtures.scene_aspen true))) ++
    [Stdout simplify_start_msg; SimplifyCall; Stdout simplify_done_msg].
Proof.
  split; [reflexivity|]. split; [reflexivity|]. split; [reflexivity|].
  apply (construct_completes (Fixtures.collaborators None None)
           {| scene := Fixtures.scene_aspen true |}); reflexivity.
Defined.

End ConstructFacts.

Module TreeTypesFacts.
Import TreeTypes.
Local Open Scope string_scope.
Local Open Scope list_scope.

Lemma split_on_not_nil (c : ascii) (s : string) : split_on c s <> [].
Proof.
  induction s as [|c' s IH]; simpl; [discriminate|].
  destruct (Ascii.eqb c' c); [discriminate|].
  destruct (split_on c s); discriminate.
Qed.

Lemma concat_cons_char (d : string) (c : ascii) (p : string) (ps : list string) :
  String.concat d (String c p :: ps) = String c (String.concat d (p :: ps)).
Proof. destruct ps; reflexivity. Qed.

Lemma string_app_assoc (a b c : string) :
  ((a ++ b) ++ c)%string = (a ++ b ++ c)%string.
Proof. induction a; simpl; congruence. Qed.

Lemma concat_app_one (d : string) (l : list string) (x : string) :
  l <> [] -> String.concat d (l ++ [x]) = (String.concat d l ++ d ++ x)%string.
Proof.
  induction l as [|y l IH]; intros Hl; [congruence|].
  destruct l as [|z l].
  - reflexivity.
  - rewrite <- app_comm_cons.
    change (String.concat d (y :: (z :: l) ++ [x]))
      with (y ++ d ++ String.concat d ((z :: l) ++ [x])%list)%string.
    rewrite IH by discriminate.
    change (String.concat d (y :: z :: l)) with (y ++ d ++ String.concat d (z :: l))%string.
    rewrite !string_app_assoc. reflexivity.
Qed.

Lemma split_on_concat (c : ascii) (s : string) :
  String.concat (String c EmptyString) (split_on c s) = s.
Proof.
  induction s as [|c' s IH]; [reflexivity|]. simpl.
  destruct (Ascii.eqb c' c) eqn:E.
  - apply Ascii.eqb_eq in E. subst c'.
    destruct (split_on c s) as [|p ps] eqn:Hs; [exfalso; exact (split_on_not_nil c s Hs)|].
    simpl. f_equal. exact IH.
  - destruct (split_on c s) as [|p ps] eqn:Hs; [exfalso; exact (split_on_not_nil c s Hs)|].
    rewrite concat_cons_char, IH. reflexivity.
Qed.

Lemma combine_map {A B C} (g : A -> B) (h : A -> C) (l : list A) :
  combine (map g l) (map h l) = map (fun x => (g x, h x)) l.
Proof. induction l; simpl; congruence. Qed.

Lemma options_fold (P : string -> bool) (m t : string -> string)
    (fs : list string) (qa0 : string) (opts0 : list option_item) :
  fold_left (fun acc mt =>
               let '(qa, opts) := acc in
               let '(module, title) := mt in
               (if P title then module else qa, opts ++ [(module, title, title)]))
            (map (fun f => (m f, t f)) fs) (qa0, opts0) =
  (match rev (filter (fun f => P (t f)) fs) with f :: _ => m f | [] => qa0 end,
   opts0 ++ map (fun f => (m f, t f, t f)) fs).
Proof.
  revert qa0 opts0.
  induction fs as [|f fs IH]; intros qa0 opts0; simpl.
  - rewrite app_nil_r. reflexivity.
  - rewrite IH, <- app_assoc. simpl.
    destruct (P (t f)) eqn:Ef; simpl;
      destruct (rev (filter (fun f0 => P (t f0)) fs)); reflexivity.
Qed.

(** Lines 31 to 44: for a folder with no preset, [modules[0]] raises
    [IndexError]; otherwise the drop-down has one item (module path,
    title, title) per file, in the listing's order, and the default is
    the module of the last file whose title is 'Quaking Aspen', or the
    first module when no file has that title. *)
Theorem folder_options_items (addon_name : string) (modparts files : list string) :
  folder_options addon_name modparts files =
  match files with
  | [] => inl IndexError
  | f0 :: _ =>
    inr (map (fun f => (module_name addon_name modparts f, option_title f, option_title f))
             files,
         match rev (filter (fun f => String.eqb (option_title f) "Quaking Aspen") files) with
         | f :: _ => module_name addon_name modparts f
         | [] => module_name addon_name modparts f0
         end)
  end.
Proof.
  unfold folder_options.
  destruct files as [|f0 fs] eqn:Hf; [reflexivity|].
  rewrite <- Hf.
  assert (Hm : map (module_name addon_name modparts) files =
               module_name addon_name modparts f0 :: map (module_name addon_name modparts) fs)
    by (subst files; reflexivity).
  rewrite Hm at 1. cbv iota beta. rewrite combine_map.
  rewrite (options_fold (fun title => String.eqb title "Quaking Aspen")
             (module_name addon_name modparts) option_title files
             (module_name addon_name modparts f0) []).
  reflexivity.
Qed.

(** Lines 19 to 21: when [__file__] has a directory part, [addon_path]
    is [__file__] without its last component and the separator before
    it. *)
Theorem addon_path_is_parent_folder (file : string)
  (Hdir : removelast (split_on sep file) <> []) :
  (String.concat (String sep EmptyString) (removelast (split_on sep file)) ++
    String sep EmptyString ++ last (split_on sep file) EmptyString)%string = file.
Proof.
  rewrite <- concat_app_one by exact Hdir.
  rewrite <- app_removelast_last by apply split_on_not_nil.
  apply split_on_concat.
Qed.

Lemma enum_options_unbound {A} (v : A) : lookup_name "enum_options" v = inl NameError.
Proof. reflexivity. Qed.

(** [_get_tree_types] never returns, and only the listing of
    [parametric/tree_params] decides how it fails: [IndexError] when
    [__file__] has no directory part (line 19) or that folder holds no
    regular file (line 36), [OSError] when it cannot be listed (line 28),
    and otherwise [NameError] at line 46, which appends to [enum_options]
    while the list is bound as [enums_options].  No other folder is
    listed: [lsystems/sys_defs] is never reached. *)
Theorem get_tree_types_never_returns (file : string)
    (listdir : string -> option (list (string * bool))) :
  _get_tree_types file listdir =
  match removelast (split_on sep file) with
  | [] => inl IndexError
  | _ :: _ =>
    match listdir (fold_left path_join ["parametric"; "tree_params"]
                     (String.concat (String sep EmptyString)
                        (removelast (split_on sep file)))) with
    | None => inl OSError
    | Some entries =>
      match listed_files entries with
      | [] => inl IndexError
      | _ :: _ => inl NameError
      end
    end
  end.
Proof.
  unfold _get_tree_types.
  destruct (removelast (split_on sep file)) as [|x xs] eqn:Hr; [reflexivity|].
  destruct (rev (x :: xs)) as [|addon_name rest] eqn:Hrev.
  { exfalso. apply (f_equal (@rev string)) in Hrev.
    rewrite rev_involutive in Hrev. discriminate Hrev. }
  cbv zeta. unfold module_path_parts.
  destruct (listdir _) as [entries|]; [|reflexivity].
  rewrite folder_options_items.
  destruct (listed_files entries); reflexivity.
Qed.

(** Line 46: when [__file__] has a directory part and the folder
    [parametric/tree_params] next to it lists at least one regular file,
    [_get_tree_types] raises [NameError]; gui.py then fails at import,
    when [TreeGen] is defined. *)
Theorem get_tree_types_name_error (file : string)
    (listdir : string -> option (list (string * bool))) (entries : list (string * bool))
  (Hdir : removelast (split_on sep file) <> [])
  (Hlist : listdir (fold_left path_join ["parametric"; "tree_params"]
             (String.concat (String sep EmptyString) (removelast (split_on sep file))))
           = Some entries)
  (Hfiles : listed_files entries <> []) :
  _get_tree_types file listdir = inl NameError.
Proof.
  unfold _get_tree_types.
  destruct (rev (removelast (split_on sep file))) as [|addon_name rest] eqn:Hr.
  { exfalso. apply Hdir. apply (f_equal (@rev string)) in Hr.
    rewrite rev_involutive in Hr. exact Hr. }
  cbv zeta. unfold module_path_parts.
  rewrite Hlist, folder_options_items.
  destruct (listed_files entries); [congruence|]. reflexivity.
Qed.

Lemma case_maps_keep_underscore (c : ascii) :
  (to_upper c = "_"%char -> c = "_"%char) /\ (to_lower c = "_"%char -> c = "_"%char).
Proof.
  destruct c as [[] [] [] [] [] [] [] []]; vm_compute; split; intros H;
    first [reflexivity | discriminate H].
Qed.

Lemma title_from_no_underscore (b : bool) (s : string) :
  ~ In "_"%char (list_ascii_of_string s) ->
  ~ In "_"%char (list_ascii_of_string (title_from b s)).
Proof.
  revert b. induction s as [|c s IH]; intros b Hs; simpl in *; [tauto|].
  intros [Hc|Hin].
  - apply Hs. left.
    destruct (case_maps_keep_underscore c) as [Hu Hl].
    destruct b; [apply Hl|apply Hu]; exact Hc.
  - apply (IH (is_upper c || is_lower c)); [tauto|exact Hin].
Qed.

Lemma replace_char_removes (a b : ascii) (s : string) :
  a <> b -> ~ In a (list_ascii_of_string (replace_char a b s)).
Proof.
  intros Hab. induction s as [|c s IH]; simpl; [tauto|].
  intros [Hc|Hin]; [|exact (IH Hin)].
  destruct (Ascii.eqb c a) eqn:E.
  - exact (Hab (eq_sym Hc)).
  - apply Ascii.eqb_neq in E. exact (E Hc).
Qed.

(** Line 35: the title of a preset, shown as label and hover text of its
    drop-down item, never contains an underscore. *)
Theorem option_title_has_no_underscore (f : string) :
  ~ In "_"%char (list_ascii_of_string (option_title f)).
Proof.
  unfold option_title, py_title.
  apply title_from_no_underscore, replace_char_removes. discriminate.
Qed.

Lemma addon_path_is_parent_folder_witness :
  removelast (split_on sep GuiFixtures.addon_file) <> [] /\
  (String.concat (String sep EmptyString) (removelast (split_on sep GuiFixtures.addon_file)) ++
    String sep EmptyString ++ last (split_on sep GuiFixtures.addon_file) EmptyString)%string
    = GuiFixtures.addon_file.
Proof.
  split; [vm_compute; intros H; discriminate H|].
  apply addon_path_is_parent_folder. vm_compute. intros H; discriminate H.
Defined.

Lemma get_tree_types_name_error_witness :
  removelast (split_on sep GuiFixtures.addon_file) <> [] /\
  GuiFixtures.addon_listing
    (fold_left path_join ["parametric"; "tree_params"]
       (String.concat (String sep EmptyString)
          (removelast (split_on sep GuiFixtures.addon_file)))) =
    Some [("black_oak.py", true); ("quaking_aspen.py", true); ("__pycache__", false)] /\
  listed_files [("black_oak.py", true); ("quaking_aspen.py", true); ("__pycache__", false)]
    <> [] /\
  _get_tree_types GuiFixtures.addon_file GuiFixtures.addon_listing = inl NameError.
Proof.
  split; [vm_compute; intros H; discriminate H|].
  split; [vm_compute; reflexivity|].
  split; [vm_compute; intros H; discriminate H|].
  apply (get_tree_types_name_error GuiFixtures.addon_file GuiFixtures.addon_listing
           [("black_oak.py", true); ("quaking_aspen.py", true); ("__pycache__", false)]).
  - vm_compute. intros H; discriminate H.
  - vm_compute. reflexivity.
  - vm_compute. intros H; discriminate H.
Defined.

End TreeTypesFacts.

Module PanelFacts.
Import Gui Panel.
Local Open Scope string_scope.
Local Open Scope list_scope.

Ltac in_layout := simpl; repeat (first [left; reflexivity | right]).
Ltac not_in_layout := let H := fresh in
  intros H; simpl in H; repeat (destruct H as [H|H]; [discriminate H|]); destruct H.

(** [draw] outside parametric mode completes: the panel shows the method
    and the L-system tree type, the leaves and simplification toggles,
    and ends with a separator, a row and the Generate Tree button
    ([object.tree_gen]); the seed, render and render path properties are
    not shown. *)
Theorem draw_lsystem_mode (sc : Scene)
  (Hmode : tree_gen_method_input sc <> "parametric") :
  fst (draw sc []) = inr tt /\
  (exists pre, snd (draw sc []) =
     pre ++ [SeparatorItem; RowItem; OperatorItem tree_gen_bl_idname]) /\
  In (PropItem "tree_gen_method_input") (snd (draw sc [])) /\
  In (PropItem "lsys_tree_type_input") (snd (draw sc [])) /\
  In (PropItem "generate_leaves_input") (snd (draw sc [])) /\
  In (PropItem "simplify_geometry_input") (snd (draw sc [])) /\
  ~ In (PropItem "para_tree_type_input") (snd (draw sc [])) /\
  ~ In (PropItem "seed_input") (snd (draw sc [])) /\
  ~ In (PropItem "render_input") (snd (draw sc [])) /\
  ~ In (PropItem "render_output_path_input") (snd (draw sc [])).
Proof.
  assert (Hb : String.eqb (tree_gen_method_input sc) "parametric" = false)
    by (apply String.eqb_neq; exact Hmode).
  remember (draw sc []) as r eqn:Hr.
  unfold draw in Hr. cbv zeta in Hr. rewrite Hb in Hr. vm_compute in Hr. subst r.
  cbn [fst snd].
  split; [reflexivity|].
  split; [match goal with |- exists pre, ?l = _ =>
            exists (firstn (List.length l - 3) l); reflexivity end|].
  do 4 (split; [in_layout|]).
  repeat split; not_in_layout.
Qed.

(** [draw] in parametric mode shows the method, tree type, seed, leaves,
    simplification and render rows, and the render path row exactly when
    rendering is on, then raises [AttributeError] at line 264, reading
    [parametric_tree_type_input], a property gui.py never registers: the
    Generate Tree button is never added. *)
Theorem draw_parametric_mode_raises (sc : Scene)
  (Hmode : tree_gen_method_input sc = "parametric") :
  fst (draw sc []) = inl Py.AttributeError /\
  In (PropItem "para_tree_type_input") (snd (draw sc [])) /\
  In (PropItem "seed_input") (snd (draw sc [])) /\
  In (PropItem "render_input") (snd (draw sc [])) /\
  (In (PropItem "render_output_path_input") (snd (draw sc [])) <-> render_input sc = true) /\
  (forall idname, ~ In (OperatorItem idname) (snd (draw sc []))).
Proof.
  assert (Hb : String.eqb (tree_gen_method_input sc) "parametric" = true)
    by (apply String.eqb_eq; exact Hmode).
  remember (draw sc []) as r eqn:Hr.
  unfold draw in Hr. cbv zeta in Hr. rewrite Hb in Hr.
  destruct (render_input sc); vm_compute in Hr; subst r; cbn [fst snd];
    (split; [reflexivity|]);
    (split; [in_layout|]); (split; [in_layout|]); (split; [in_layout|]);
    (split; [split; [(intros _; reflexivity) || not_in_layout|intros H; try discriminate H; in_layout]|]);
    intros idname; not_in_layout.
Qed.

(** [label_row] (lines 227 to 241) never raises and only appends to the
    layout: it starts a row, shows [prop] exactly once, shows [label]
    exactly when it is not empty, and ends with a separator exactly when
    [separator] is set. *)
Theorem label_row_appends (label prop : string) (separator one_row : bool) (l : list item) :
  fst (label_row label prop separator one_row l) = inr tt /\
  exists added,
    snd (label_row label prop separator one_row l) = l ++ added /\
    hd_error added = Some RowItem /\
    filter is_prop added = [PropItem prop] /\
    (In (LabelItem label) added <-> label <> "") /\
    (last added RowItem = SeparatorItem <-> separator = true).
Proof.
  unfold label_row, dseq, add, dret.
  destruct (String.eqb label "") eqn:El.
  - apply String.eqb_eq in El. subst label.
    rewrite orb_true_r.
    destruct separator; cbn; (split; [reflexivity|]); eexists;
      rewrite <- !app_assoc; cbn;
      (split; [reflexivity|]); (split; [reflexivity|]); (split; [reflexivity|]);
      (split; [split; [not_in_layout
                      |intros H; exfalso; apply H; reflexivity]|]);
      (split; [intros H; try reflexivity; discriminate H|intros H; try reflexivity; discriminate H]).
  - apply String.eqb_neq in El.
    destruct one_row, separator; cbn; (split; [reflexivity|]); eexists;
      rewrite <- !app_assoc; cbn;
      (split; [reflexivity|]); (split; [reflexivity|]); (split; [reflexivity|]);
      (split; [split; [intros _; exact El|intros _; simpl; tauto]|]);
      (split; [intros H; try reflexivity; discriminate H|intros H; try reflexivity; discriminate H]).
Qed.

Lemma draw_lsystem_mode_witness :
  tree_gen_method_input GuiFixtures.lsystem_scene <> "parametric" /\
  fst (draw GuiFixtures.lsystem_scene []) = inr tt /\
  (exists pre, snd (draw GuiFixtures.lsystem_scene []) =
     pre ++ [SeparatorItem; RowItem; OperatorItem tree_gen_bl_idname]) /\
  In (PropItem "tree_gen_method_input") (snd (draw GuiFixtures.lsystem_scene [])) /\
  In (PropItem "lsys_tree_type_input") (snd (draw GuiFixtures.lsystem_scene [])) /\
  In (PropItem "generate_leaves_input") (snd (draw GuiFixtures.lsystem_scene [])) /\
  In (PropItem "simplify_geometry_input") (snd (draw GuiFixtures.lsystem_scene [])) /\
  ~ In (PropItem "para_tree_type_input") (snd (draw GuiFixtures.lsystem_scene [])) /\
  ~ In (PropItem "seed_input") (snd (draw GuiFixtures.lsystem_scene [])) /\
  ~ In (PropItem "render_input") (snd (draw GuiFixtures.lsystem_scene [])) /\
  ~ In (PropItem "render_output_path_input") (snd (draw GuiFixtures.lsystem_scene [])).
Proof.
  split; [vm_compute; intros H; discriminate H|].
  apply draw_lsystem_mode. vm_compute. intros H; discriminate H.
Defined.

Lemma draw_parametric_mode_raises_witness :
  tree_gen_method_input (GuiFixtures.custom_scene true) = "parametric" /\
  fst (draw (GuiFixtures.custom_scene true) []) = inl Py.AttributeError /\
  In (PropItem "para_tree_type_input") (snd (draw (GuiFixtures.custom_scene true) [])) /\
  In (PropItem "seed_input") (snd (draw (GuiFixtures.custom_scene true) [])) /\
  In (PropItem "render_input") (snd (draw (GuiFixtures.custom_scene true) [])) /\
  (In (PropItem "render_output_path_input") (snd (draw (GuiFixtures.custom_scene true) []))
     <-> render_input (GuiFixtures.custom_scene true) = true) /\
  (forall idname, ~ In (OperatorItem idname) (snd (draw (GuiFixtures.custom_scene true) []))).
Proof.
  split; [reflexivity|].
  apply draw_parametric_mode_raises. reflexivity.
Defined.

End PanelFacts.
